(** * Pacifica notifications notebook: the dispatch handler binding

    A shallow embedding of the Python code of
    [docker/jupytervolume/Pacifica v2.0 Notifications.ipynb]:
    the class [SimpleEventHandler] (its [handle] method), the route
    registration [ROUTER.add_route (Path.parse_str ...) ...], and the
    cells that write the uploader configuration, cut the JSON object
    out of the output of the upload, and check the dispatcher.

    The handler is effectful: it creates two temporary directories,
    calls a downloader runner, rewrites every downloaded file in upper
    case into the second directory, calls an uploader runner, and the
    two [with] blocks remove the directories on the way out.  The
    embedding threads an explicit world (a file system, the state of
    the remote services, and a trace of the calls the handler makes)
    through an exception monad. *)

From Stdlib Require Import ZArith String Ascii List Bool Lia.
From stdpp Require Import base gmap sets list strings pretty.

Local Open Scope string_scope.
Local Open Scope list_scope.

(* ===================================================================== *)
(** ** Python runtime: values, exceptions, results                        *)
(* ===================================================================== *)

Module Py.

(** The Python values that the handler passes around as attributes of
    model objects and as its own return value. *)
Inductive value : Type :=
| None_
| Int (z : Z)
| Str (s : string).

(** Exceptions.  The [OSError] subclasses are the ones the built-ins used
    by the handler raise; [Error] stands for whatever an external
    package (downloader, uploader, model classes, path parser) raises. *)
Inductive exn : Type :=
| FileNotFoundError (path : string)
| FileExistsError
| IsADirectoryError (path : string)
| NotADirectoryError (path : string)
| Error (what : string).

Inductive result (A : Type) : Type :=
| Ok (a : A)
| Raise (e : exn).
Arguments Ok {A} a.
Arguments Raise {A} e.

Definition outcome {A} (r : result A) : option exn :=
  match r with Ok _ => None | Raise e => Some e end.

#[global] Instance value_eq_dec : EqDecision value.
Proof. solve_decision. Defined.

#[global] Instance exn_eq_dec : EqDecision exn.
Proof. solve_decision. Defined.

(** [str.upper] on ASCII text: the letters a-z go to A-Z, every other
    character stays. *)
Definition upper_ascii (c : ascii) : ascii :=
  let n := nat_of_ascii c in
  if (97 <=? n)%nat && (n <=? 122)%nat then ascii_of_nat (n - 32) else c.

Fixpoint upper_ascii_text (s : string) : string :=
  match s with
  | EmptyString => EmptyString
  | String c s' => String (upper_ascii c) (upper_ascii_text s')
  end.

(** [str.isascii]: every character is below 128. *)
Fixpoint isascii (s : string) : bool :=
  match s with
  | EmptyString => true
  | String c s' => (nat_of_ascii c <? 128)%nat && isascii s'
  end.

(** [str.upper].  A Python string is a sequence of Unicode code points
    and the method follows the case mappings of the Unicode database of
    the interpreter: it can map one character to several, and the
    database is not part of the repository.  Text is kept here as its
    UTF-8 bytes and the method is an interface: what is known of it is
    what it does on ASCII text. *)
Class Unicode : Type := {
  upper : string → string;
  upper_isascii : ∀ s, isascii s = true → upper s = upper_ascii_text s
}.

End Py.

(* ===================================================================== *)
(** ** [os.path] on POSIX path strings                                    *)
(* ===================================================================== *)

Module OsPath.

Definition sep : ascii := "/"%char.

Definition startswith_sep (s : string) : bool :=
  match s with
  | String c _ => Ascii.eqb c sep
  | EmptyString => false
  end.

Fixpoint endswith_sep (s : string) : bool :=
  match s with
  | EmptyString => false
  | String c EmptyString => Ascii.eqb c sep
  | String _ s' => endswith_sep s'
  end.

(** [os.path.join(a, b)] (posixpath): an absolute [b] discards [a]. *)
Definition join (a b : string) : string :=
  if startswith_sep b then b
  else if (String.eqb a "" || endswith_sep a)%bool then a +:+ b
  else a +:+ "/" +:+ b.

(** Split at the last separator: ([head] up to and including it, [tail]
    after it), as [posixpath.split] does before it strips the head. *)
Fixpoint split_last (s : string) : string * string :=
  match s with
  | EmptyString => (EmptyString, EmptyString)
  | String c s' =>
      let '(h, t) := split_last s' in
      if Ascii.eqb c sep then
        match h with
        | EmptyString => (String c EmptyString, s')
        | _ => (String c h, t)
        end
      else
        match h with
        | EmptyString => (EmptyString, String c t)
        | _ => (String c h, t)
        end
  end.

Definition basename (p : string) : string := snd (split_last p).

Fixpoint all_sep (s : string) : bool :=
  match s with
  | EmptyString => true
  | String c s' => Ascii.eqb c sep && all_sep s'
  end.

Fixpoint rstrip_sep (s : string) : string :=
  match s with
  | EmptyString => EmptyString
  | String c s' =>
      let r := rstrip_sep s' in
      match r with
      | EmptyString => if Ascii.eqb c sep then EmptyString else String c EmptyString
      | _ => String c r
      end
  end.

(** [os.path.dirname]. *)
Definition dirname (p : string) : string :=
  let h := fst (split_last p) in
  if all_sep h then h else rstrip_sep h.

(** [p] is the directory [d] itself or lies below it. *)
Definition is_under (d p : string) : bool :=
  (String.eqb p d || String.prefix (d +:+ "/") p)%bool.

Fixpoint has_sep (s : string) : bool :=
  match s with
  | EmptyString => false
  | String c s' => Ascii.eqb c sep || has_sep s'
  end.

(** A name of one path component: not empty, not [.] or [..], and
    without a separator. *)
Definition plain (n : string) : bool :=
  negb (String.eqb n "" || String.eqb n "." || String.eqb n ".." || has_sep n).

(** [p.split('/')]: the stretches of [p] between the separators. *)
Fixpoint components (p : string) : list string :=
  match p with
  | EmptyString => [EmptyString]
  | String c p' =>
      if Ascii.eqb c sep then EmptyString :: components p'
      else match components p' with
           | h :: t => String c h :: t
           | [] => [String c EmptyString]
           end
  end.

(** A relative path in normal form: every component is a name. *)
Definition normal (n : string) : bool := forallb plain (components n).

(** The directories above [p] as the path is written, nearest first:
    [dirname p], its [dirname], and so on. *)
Fixpoint above (fuel : nat) (p : string) : list string :=
  match fuel with
  | O => []
  | S fuel' =>
      let d := dirname p in
      if String.eqb d p then [] else d :: above fuel' d
  end.

Definition ancestors (p : string) : list string := above (String.length p) p.

End OsPath.

(* ===================================================================== *)
(** ** The file system                                                    *)
(* ===================================================================== *)

(** Directories and regular text files, keyed by their path as written.
    There are no links and no permissions, and a path is not resolved:
    the operations below are those of the operating system for paths in
    normal form (between the separators there are names: no component is
    empty, [.] or [..]), and the properties about the content of files
    are stated for such paths. *)
Record FS : Type := mkFS {
  dirs : gset string;
  files : gmap string string
}.

Module Fs.
Import Py.

Definition exists_ (fs : FS) (p : string) : bool :=
  bool_decide (p ∈ dirs fs) || bool_decide (is_Some (files fs !! p)).

Definition mkdir (d : string) (fs : FS) : FS :=
  mkFS ({[d]} ∪ dirs fs) (files fs).

(** What [shutil.rmtree d] leaves: nothing at [d] or below it. *)
Definition remove_tree (d : string) (fs : FS) : FS :=
  mkFS (filter (λ p, OsPath.is_under d p = false) (dirs fs))
       (filter (λ kv, OsPath.is_under d kv.1 = false) (files fs)).

(** The error for a path that leads to nothing: [ENOTDIR] when a
    regular file stands where a directory of the path should be,
    [ENOENT] otherwise. *)
Definition missing (p : string) (fs : FS) : exn :=
  if existsb (λ a, bool_decide (is_Some (files fs !! a))) (OsPath.ancestors p)
  then NotADirectoryError p else FileNotFoundError p.

(** [shutil.rmtree d] without [ignore_errors]. *)
Definition rmtree (d : string) (fs : FS) : result unit * FS :=
  if bool_decide (d ∈ dirs fs) then (Ok tt, remove_tree d fs)
  else if bool_decide (is_Some (files fs !! d)) then (Raise (NotADirectoryError d), fs)
  else (Raise (missing d fs), fs).

Definition names_a_directory (b : string) : bool :=
  (String.eqb b "" || String.eqb b "." || String.eqb b "..")%bool.

(** [open(p, 'w')]: creates [p] or truncates it; the directory that is
    to hold [p] has to be there, and [p] must not name a directory. *)
Definition open_w (p : string) (fs : FS) : result unit * FS :=
  if bool_decide (p ∈ dirs fs) then (Raise (IsADirectoryError p), fs)
  else if negb (bool_decide (OsPath.dirname p ∈ dirs fs))
  then (Raise (missing p fs), fs)
  else if names_a_directory (OsPath.basename p) then (Raise (IsADirectoryError p), fs)
  else (Ok tt, mkFS (dirs fs) (<[p := ""]> (files fs))).

(** What [write] followed by closing the file leaves at [p]. *)
Definition write_text (p s : string) (fs : FS) : FS :=
  mkFS (dirs fs) (<[p := s]> (files fs)).

(** [read()] on a file that was opened at [p]: the text that the file
    holds at the time of the read. *)
Definition read_text (p : string) (fs : FS) : result string :=
  match files fs !! p with
  | Some s => Ok s
  | None => Raise (FileNotFoundError p)
  end.

(** [tempfile.mkdtemp]: candidate names are tried until one is unused, at
    most [TMP_MAX] of them ([os.TMP_MAX], 238328 on Linux).  The
    candidates are [/tmp/tmp0], [/tmp/tmp1], ... in place of the random
    names of the library. *)
Definition TMP_MAX : nat := 62 * 62 * 62.

Definition candidate (n : nat) : string := "/tmp/tmp" +:+ pretty n.

Fixpoint first_free (fs : FS) (n fuel : nat) : option string :=
  match fuel with
  | O => None
  | S fuel' =>
      if exists_ fs (candidate n) then first_free fs (S n) fuel'
      else Some (candidate n)
  end.

Definition mkdtemp (fs : FS) : result string * FS :=
  match first_free fs 0 TMP_MAX with
  | Some d => (Ok d, mkdir d fs)
  | None => (Raise FileExistsError, fs)
  end.

Definition empty : FS := mkFS ∅ ∅.

End Fs.

(* ===================================================================== *)
(** ** Model objects of [pacifica.dispatcher.models]                      *)
(* ===================================================================== *)

(** The attributes of [Transaction] that the handler reads or sets.  A
    keyword left out of the constructor call leaves its attribute at
    [None]. *)
Record Transaction : Type := mkTransaction {
  _id : Py.value;
  submitter : Py.value;
  instrument : Py.value;
  project : Py.value
}.

Record TransactionKeyValue : Type := mkTransactionKeyValue {
  key : string;
  value : Py.value
}.

#[global] Instance Transaction_eq_dec : EqDecision Transaction.
Proof. solve_decision. Defined.

#[global] Instance TransactionKeyValue_eq_dec : EqDecision TransactionKeyValue.
Proof. solve_decision. Defined.

(** A text file object as the handler uses it: its [name] attribute and
    its [read] method, which sees the file system at the time of the
    call. *)
Record TextIO : Type := mkTextIO {
  name : string;
  read : FS → Py.result string
}.

(** The callables that [DownloaderRunner.download] returns. *)
Definition opener : Type := FS → Py.result TextIO.

(** The built-in [open(path, 'r')]: the file object carries the path it
    was opened with as its [name]. *)
Definition builtin_open (path : string) : opener :=
  λ fs, match files fs !! path with
        | Some _ => Py.Ok (mkTextIO path (Fs.read_text path))
        | None => Py.Raise (if bool_decide (path ∈ dirs fs) then Py.IsADirectoryError path
                            else Fs.missing path fs)
        end.

(* ===================================================================== *)
(** ** [SimpleEventHandler]                                               *)
(* ===================================================================== *)

Section Handler.
Import Py.

(** Types owned by the external packages: the cloud event, the [File]
    model, the bundle and the state that the uploader hands back, and
    the state of the remote services behind the runners. *)
Context {Event File Bundle State Remote : Type}.

(** [Transaction.from_cloudevents_model] and its two siblings. *)
Class CloudEventsModels : Type := {
  Transaction_from_cloudevents_model : Event → result Transaction;
  TransactionKeyValue_from_cloudevents_model : Event → result (list TransactionKeyValue);
  File_from_cloudevents_model : Event → result (list File)
}.

(** The abstract class [DownloaderRunner]: [download(basedir, files)]. *)
Class DownloaderRunner : Type :=
  download : string → list File → FS → Remote → result (list opener) * FS * Remote.

(** The abstract class [UploaderRunner]:
    [upload(basedir, transaction=..., transaction_key_values=...)]
    returns the triple (bundle, job id, state). *)
Class UploaderRunner : Type :=
  upload : string → Transaction → list TransactionKeyValue → FS → Remote →
           result (Bundle * Z * State) * FS * Remote.

Context {models : CloudEventsModels}.

(** [str.upper] of the interpreter that runs the handler. *)
Context {unicode : Unicode}.

(** The object that [__init__] builds: it keeps the two runners. *)
Record SimpleEventHandler : Type := mkSimpleEventHandler {
  downloader_runner : DownloaderRunner;
  uploader_runner : UploaderRunner
}.

(** What the handler is seen to do, in order: the directories it makes
    and removes, the runner calls with the exception they ended in (if
    any), the files it opens, and for each file it rewrites the text it
    read and the path it wrote the upper-case text to.  An upload call
    also records the file system it was given and the job id that the
    runner answered with. *)
Inductive call : Type :=
| Mkdtemp (d : string)
| Cleanup (d : string)
| Download (basedir : string) (fl : list File) (raised : option exn)
| Opened (file_fd : TextIO)
| Written (file_fd : TextIO) (text : string) (path : string)
| Upload (basedir : string) (t : Transaction) (kvs : list TransactionKeyValue)
         (now : FS) (answer : result Z).

Record world : Type := mkWorld {
  fs : FS;
  remote : Remote;
  trace : list call
}.

Definition log (c : call) (w : world) : world :=
  mkWorld (fs w) (remote w) (trace w ++ [c]).

(** Computations that run in a world and return or raise. *)
Definition M (A : Type) : Type := world → result A * world.

Definition ret {A} (a : A) : M A := λ w, (Ok a, w).

Definition bind {A B} (m : M A) (k : A → M B) : M B :=
  λ w, match m w with
       | (Ok a, w') => k a w'
       | (Raise e, w') => (Raise e, w')
       end.

Definition lift {A} (r : result A) : M A := λ w, (r, w).

Notation "'let*' x ':=' m 'in' k" := (bind m (λ x, k))
  (at level 10, x name, m at level 100, k at level 200).

(** [for x in l: body x]. *)
Fixpoint for_each {A} (body : A → M unit) (l : list A) : M unit :=
  match l with
  | [] => ret tt
  | x :: l' => let* _ := body x in for_each body l'
  end.

(** [tempfile.TemporaryDirectory()]: the constructor. *)
Definition TemporaryDirectory : M string :=
  λ w, match Fs.mkdtemp (fs w) with
       | (Ok d, fs') => (Ok d, log (Mkdtemp d) (mkWorld fs' (remote w) (trace w)))
       | (Raise e, fs') => (Raise e, mkWorld fs' (remote w) (trace w))
       end.

(** [TemporaryDirectory.__exit__]: [cleanup] removes the tree. *)
Definition cleanup (d : string) : M unit :=
  λ w, let '(r, fs') := Fs.rmtree d (fs w) in
       (r, log (Cleanup d) (mkWorld fs' (remote w) (trace w))).

(** [with tempfile.TemporaryDirectory() as d: body d].  The exit runs
    however the body ends; it returns nothing, so an exception of the
    body goes on, unless the exit raises one of its own. *)
Definition with_TemporaryDirectory {A} (body : string → M A) : M A :=
  λ w, match TemporaryDirectory w with
       | (Raise e, w1) => (Raise e, w1)
       | (Ok d, w1) =>
           let '(r, w2) := body d w1 in
           match cleanup d w2 with
           | (Raise e', w3) => (Raise e', w3)
           | (Ok _, w3) => (r, w3)
           end
       end.

(** [runner.download(basedir, fl)]. *)
Definition call_download (runner : DownloaderRunner) (basedir : string)
    (fl : list File) : M (list opener) :=
  λ w, let '(r, fs', rem') := @download runner basedir fl (fs w) (remote w) in
       (r, log (Download basedir fl (outcome r)) (mkWorld fs' rem' (trace w))).

(** The job id in the triple that an upload answers with. *)
Definition job_id_of (r : result (Bundle * Z * State)) : result Z :=
  match r with
  | Ok (_, job_id, _) => Ok job_id
  | Raise e => Raise e
  end.

(** [runner.upload(basedir, transaction=t, transaction_key_values=kvs)]. *)
Definition call_upload (runner : UploaderRunner) (basedir : string) (t : Transaction)
    (kvs : list TransactionKeyValue) : M (Bundle * Z * State) :=
  λ w, let '(r, fs', rem') := @upload runner basedir t kvs (fs w) (remote w) in
       (r, log (Upload basedir t kvs (fs w) (job_id_of r)) (mkWorld fs' rem' (trace w))).

Definition call_opener (file_opener : opener) : M TextIO :=
  λ w, match file_opener (fs w) with
       | Ok f => (Ok f, log (Opened f) w)
       | Raise e => (Raise e, w)
       end.

Definition open_w (p : string) : M unit :=
  λ w, let '(r, fs') := Fs.open_w p (fs w) in (r, mkWorld fs' (remote w) (trace w)).

Definition call_read (file_fd : TextIO) : M string :=
  λ w, (read file_fd (fs w), w).

Definition write_close (file_fd : TextIO) (p text : string) : M unit :=
  λ w, (Ok tt, log (Written file_fd text p)
                   (mkWorld (Fs.write_text p (upper text) (fs w)) (remote w) (trace w))).

(** The body of the [for] loop of [handle]. *)
Definition transform (uploader_tempdir_name : string) (file_opener : opener) : M unit :=
  let* file_fd := call_opener file_opener in
  let p := OsPath.join uploader_tempdir_name (name file_fd) in
  let* _ := open_w p in
  let* text := call_read file_fd in
  write_close file_fd p text.

(** [SimpleEventHandler.handle]. *)
Definition handle (self : SimpleEventHandler) (event : Event) : M value :=
  let* transaction_inst := lift (Transaction_from_cloudevents_model event) in
  let* transaction_key_value_insts := lift (TransactionKeyValue_from_cloudevents_model event) in
  let* file_insts := lift (File_from_cloudevents_model event) in
  with_TemporaryDirectory (λ downloader_tempdir_name,
    with_TemporaryDirectory (λ uploader_tempdir_name,
      let* openers := call_download (downloader_runner self)
                                    downloader_tempdir_name file_insts in
      let* _ := for_each (transform uploader_tempdir_name) openers in
      let* uploaded := call_upload (uploader_runner self) uploader_tempdir_name
          (mkTransaction None_ (submitter transaction_inst)
                         (instrument transaction_inst) (project transaction_inst))
          [ mkTransactionKeyValue "uppercase_text" (Str "True");
            mkTransactionKeyValue "Transactions._id" (_id transaction_inst) ] in
      let '(_bundle, _job_id, _state) := uploaded in
      ret None_)).

End Handler.

(* ===================================================================== *)
(** ** Events as JSON, path predicates and the router                     *)
(* ===================================================================== *)

(** The payload of an event: a cloud-event envelope whose [data] member
    is an array of destination-table records. *)
#[local] Unset Elimination Schemes.
Inductive json : Type :=
| JNull
| JBool (b : bool)
| JNumber (z : Z)
| JString (s : string)
| JArray (items : list json)
| JObject (members : list (string * json)).
#[local] Set Elimination Schemes.

Module Json.

Fixpoint assoc (k : string) (members : list (string * json)) : option json :=
  match members with
  | [] => None
  | (k', v) :: rest => if String.eqb k k' then Some v else assoc k rest
  end.

(** [v[k]] for an object that has the member. *)
Definition member (k : string) (v : json) : option json :=
  match v with
  | JObject members => assoc k members
  | _ => None
  end.

(** The elements of an array, the member values of an object. *)
Definition children (v : json) : list json :=
  match v with
  | JArray items => items
  | JObject members => map snd members
  | _ => []
  end.

Definition is_string (s : string) (v : json) : bool :=
  match v with
  | JString s' => String.eqb s s'
  | _ => false
  end.

(** The records of the [data] array of an event. *)
Definition records (event : json) : list json :=
  match member "data" event with
  | Some d => children d
  | None => []
  end.

(** The record is a [TransactionKeyValue] row with this key and value. *)
Definition is_tkv (k v : string) (record : json) : bool :=
  match member "destinationTable" record, member "key" record, member "value" record with
  | Some t, Some k', Some v' =>
      is_string "TransactionKeyValue" t && is_string k k' && is_string v v'
  | _, _, _ => false
  end.

(** The key-value set of the event contains [k = v]. *)
Definition has_tkv (k v : string) (event : json) : bool :=
  existsb (is_tkv k v) (records event).

(** The record that a key-value pair of an upload becomes in the event
    of that upload. *)
Definition tkv_record (k v : string) : json :=
  JObject [("destinationTable", JString "TransactionKeyValue");
           ("key", JString k); ("value", JString v)].

(** A Python value as JSON, and the record that a key-value pair of an
    upload becomes in the event of that upload. *)
Definition of_value (v : Py.value) : json :=
  match v with
  | Py.None_ => JNull
  | Py.Int z => JNumber z
  | Py.Str s => JString s
  end.

Definition key_value_record (kv : TransactionKeyValue) : json :=
  JObject [("destinationTable", JString "TransactionKeyValue");
           ("key", JString (key kv)); ("value", of_value (value kv))].

End Json.

(** Modelled from the spec: the predicate language of the router (the
    package [jsonpath2] is not part of the repository).  A predicate is
    a path rooted at the payload; a step selects a member, all children,
    or keeps the current element when a filter holds of it; a filter
    compares what a relative path reaches with a string, and a match
    exists when some element is reached. *)
Module JsonPath.

Inductive expr : Type :=
| Eq (keys : list string) (literal : string)
| And (a b : expr).

Inductive subscript : Type :=
| Key (k : string)
| Wildcard
| Filter (e : expr).

Definition Path : Type := list subscript.

Definition select (k : string) (v : json) : list json :=
  match Json.member k v with
  | Some x => [x]
  | None => []
  end.

Fixpoint follow (keys : list string) (v : json) : list json :=
  match keys with
  | [] => [v]
  | k :: keys' => flat_map (follow keys') (select k v)
  end.

Fixpoint holds (e : expr) (current : json) : bool :=
  match e with
  | Eq keys literal => existsb (Json.is_string literal) (follow keys current)
  | And a b => holds a current && holds b current
  end.

Definition step (s : subscript) (v : json) : list json :=
  match s with
  | Key k => select k v
  | Wildcard => Json.children v
  | Filter e => if holds e v then [v] else []
  end.

Fixpoint match_ (p : Path) (v : json) : list json :=
  match p with
  | [] => [v]
  | s :: p' => flat_map (match_ p') (step s v)
  end.

Definition matches (p : Path) (event : json) : bool :=
  match match_ p event with
  | [] => false
  | _ :: _ => true
  end.

End JsonPath.

(** Modelled from the spec: the router of [pacifica.dispatcher.router]
    (not part of the repository): an ordered collection of (predicate,
    handler) pairs; for an event, the handlers whose predicate matches
    are the ones invoked, in registration order. *)
Module Router.

Section Router.
Context {Handler : Type}.

Record Router : Type := mkRouter {
  routes : list (JsonPath.Path * Handler)
}.

(** [Router()]. *)
Definition new : Router := mkRouter [].

(** [router.add_route(path, handler)]. *)
Definition add_route (path : JsonPath.Path) (handler : Handler) (r : Router) : Router :=
  mkRouter (routes r ++ [(path, handler)]).

(** The handlers that the router invokes for the event. *)
Definition match_ (r : Router) (event : json) : list Handler :=
  map snd (filter (λ route, JsonPath.matches route.1 event = true) (routes r)).

End Router.
Arguments Router : clear implicits.

End Router.

(** The predicate of the notebook,
    [$["data"][*][?(@["destinationTable"] = "TransactionKeyValue" and
                    @["key"] = "uppercase_text" and @["value"] = "False")]],
    as the path it denotes. *)
Definition uppercase_false_path : JsonPath.Path :=
  [ JsonPath.Key "data"; JsonPath.Wildcard;
    JsonPath.Filter
      (JsonPath.And (JsonPath.Eq ["destinationTable"] "TransactionKeyValue")
         (JsonPath.And (JsonPath.Eq ["key"] "uppercase_text")
                       (JsonPath.Eq ["value"] "False"))) ].

(** [ROUTER] after the cell that links the event handler. *)
Definition ROUTER {Handler : Type} (simple_event_handler : Handler) : Router.Router Handler :=
  Router.add_route uppercase_false_path simple_event_handler Router.new.

(* ===================================================================== *)
(** ** Vocabulary for the runs of the handler                             *)
(* ===================================================================== *)

(** The digits of a number hold no separator. *)
Definition component (s : string) : Prop := s ≠ "" ∧ OsPath.has_sep s = false.

Section HandlerSpec.
Import Py.
Context {Event File Bundle State Remote : Type}.
Context {models : @CloudEventsModels Event File}.
Context {unicode : Unicode}.

Abbreviation world := (@world File Remote).
Abbreviation call := (@call File).
Abbreviation handler := (@SimpleEventHandler File Bundle State Remote).

(** The calls that rewriting one file leaves in the trace, and the path
    the upper-case text goes to. *)
Definition target (d : string) (fw : TextIO * string) : string :=
  OsPath.join d (name fw.1).

Definition rewritten (d : string) (fw : TextIO * string) : list call :=
  [Opened fw.1; Written fw.1 fw.2 (target d fw)].

Definition loop_call (c : call) : Prop :=
  match c with
  | Opened _ | Written _ _ _ => True
  | _ => False
  end.

(** The transaction and the key-value list that [handle] builds for the
    upload from the transaction of the event. *)
Definition new_transaction (ti : Transaction) : Transaction :=
  mkTransaction None_ (submitter ti) (instrument ti) (project ti).

Definition new_key_values (ti : Transaction) : list TransactionKeyValue :=
  [ mkTransactionKeyValue "uppercase_text" (Str "True");
    mkTransactionKeyValue "Transactions._id" (_id ti) ].

(** The block inside the two [with] statements. *)
Definition round_trip (self : handler) (ti : Transaction) (fl : list File)
    (d1 d2 : string) : M value :=
  bind (call_download (downloader_runner self) d1 fl) (λ openers,
  bind (for_each (transform d2) openers) (λ _,
  bind (call_upload (uploader_runner self) d2 (new_transaction ti) (new_key_values ti))
       (λ uploaded, let '(_bundle, _job_id, _state) := uploaded in ret None_))).

(** Every rewritten file holds the upper-case text in [now], as long as
    no two of them went to one path. *)
Definition rewritten_in (d : string) (fws : list (TextIO * string)) (now : FS) : Prop :=
  Forall (λ fw : TextIO * string, ∃ fs1, read fw.1 fs1 = Ok fw.2) fws ∧
  (NoDup (map (target d) fws) →
   ∀ fw, fw ∈ fws → files now !! target d fw = Some (upper fw.2)).

(** How the block can end, with the calls it made. *)
Inductive round_trip_shape (ti : Transaction) (fl : list File) (d1 d2 : string)
  : result value → list call → Prop :=
| download_raised e :
    round_trip_shape ti fl d1 d2 (Raise e) [Download d1 fl (Some e)]
| loop_raised e loop :
    Forall loop_call loop →
    round_trip_shape ti fl d1 d2 (Raise e) (Download d1 fl None :: loop)
| upload_raised e fws now :
    rewritten_in d2 fws now →
    round_trip_shape ti fl d1 d2 (Raise e)
      (Download d1 fl None :: flat_map (rewritten d2) fws ++
       [Upload d2 (new_transaction ti) (new_key_values ti) now (Raise e)])
| uploaded fws now job_id :
    rewritten_in d2 fws now →
    round_trip_shape ti fl d1 d2 (Ok None_)
      (Download d1 fl None :: flat_map (rewritten d2) fws ++
       [Upload d2 (new_transaction ti) (new_key_values ti) now (Ok job_id)]).

(** The exceptions that leaving a [with] block can raise. *)
Definition exit_error (e : exn) : Prop :=
  ∃ d, e = FileNotFoundError d ∨ e = NotADirectoryError d.

(** The result [r] of a [with] statement whose body ended in [rb]. *)
Definition exits {A} (rb r : result A) : Prop :=
  r = rb ∨ ∃ e, r = Raise e ∧ exit_error e.

(** The exceptions that removing one of the directories [ds] can raise,
    and the result [r] of the [with] statements on these directories
    when the innermost body ended in [rb]. *)
Definition cleanup_error (ds : list string) (e : exn) : Prop :=
  ∃ d, d ∈ ds ∧ (e = FileNotFoundError d ∨ e = NotADirectoryError d).

Definition exits_from {A} (ds : list string) (rb r : result A) : Prop :=
  r = rb ∨ ∃ e, r = Raise e ∧ cleanup_error ds e.

(** The calls made between two worlds of one run. *)
Definition calls_of (w w' : world) : list call := drop (length (trace w)) (trace w').

(** How a run of [handle] can end, with the calls it made. *)
Inductive handle_shape (event : Event) (r : result value) (w' : world)
  : list call → Prop :=
| models_raised e :
    r = Raise e →
    Transaction_from_cloudevents_model event = Raise e ∨
    TransactionKeyValue_from_cloudevents_model event = Raise e ∨
    File_from_cloudevents_model event = Raise e →
    handle_shape event r w' []
| first_mkdtemp_raised :
    r = Raise FileExistsError →
    handle_shape event r w' []
| second_mkdtemp_raised d1 e :
    r = Raise e →
    d1 ∉ dirs (fs w') →
    handle_shape event r w' [Mkdtemp d1; Cleanup d1]
| round_trip_ran ti fl k1 k2 rb inner :
    Transaction_from_cloudevents_model event = Ok ti →
    File_from_cloudevents_model event = Ok fl →
    round_trip_shape ti fl (Fs.candidate k1) (Fs.candidate k2) rb inner →
    exits rb r →
    Fs.candidate k1 ∉ dirs (fs w') →
    Fs.candidate k2 ∉ dirs (fs w') →
    exits_from [Fs.candidate k2; Fs.candidate k1] rb r →
    handle_shape event r w'
      ([Mkdtemp (Fs.candidate k1); Mkdtemp (Fs.candidate k2)] ++ inner ++
       [Cleanup (Fs.candidate k2); Cleanup (Fs.candidate k1)]).

(** The block inside the [with] statements makes and removes no
    directory. *)
Definition block_call (c : call) : Prop :=
  match c with
  | Mkdtemp _ | Cleanup _ => False
  | _ => True
  end.

(** The exception that a runner call ended in, for the calls of the
    runners. *)
Definition runner_raised (c : call) : option exn :=
  match c with
  | Download _ _ raised => raised
  | Upload _ _ _ _ answer => outcome answer
  | _ => None
  end.

Definition is_upload (c : call) : bool :=
  match c with
  | Upload _ _ _ _ _ => true
  | _ => false
  end.

End HandlerSpec.

(* ===================================================================== *)
(** ** Test doubles for the external packages                             *)
(* ===================================================================== *)

Module Scenario.
Import Py.

(** Files are known by their name; the remote state is the next job id
    of the ingest service. *)
Definition File : Type := string.
Definition Remote : Type := Z.

(** The texts of the scenarios are ASCII, and for them [str.upper] is
    the mapping of a-z to A-Z. *)
#[export] Instance ascii_text : Unicode :=
  {| upper := upper_ascii_text; upper_isascii := λ _ _, eq_refl |}.

(** Model classes that read a fixed transaction and file list off any
    event. *)
Definition models_of (t : Transaction) (fl : list File) : @CloudEventsModels json File :=
  {| Transaction_from_cloudevents_model := λ _, Ok t;
     TransactionKeyValue_from_cloudevents_model := λ _, Ok [];
     File_from_cloudevents_model := λ _, Ok fl |}.

(** The text that the archive holds for a file. *)
Definition archive (f : File) : string := "hello".

Definition fetch (basedir : string) (fl : list File) (fs : FS) : FS :=
  foldr (λ f acc, Fs.write_text (OsPath.join basedir f) (archive f) acc) fs fl.

(** A downloader whose openers use the built-in [open] on the path of
    the downloaded file. *)
Definition builtin_downloader : @DownloaderRunner File Remote :=
  λ basedir fl fs rem,
    (Ok (map (λ f, builtin_open (OsPath.join basedir f)) fl), fetch basedir fl fs, rem).

(** A downloader whose file objects are named by the bare file name. *)
Definition named_downloader : @DownloaderRunner File Remote :=
  λ basedir fl fs rem,
    (Ok (map (λ f, (λ _, Ok (mkTextIO f (Fs.read_text (OsPath.join basedir f)))) : opener) fl),
     fetch basedir fl fs, rem).

(** A downloader whose service is down. *)
Definition failing_downloader : @DownloaderRunner File Remote :=
  λ basedir fl fs rem, (Raise (Error "download failed"), fs, rem).


(** An uploader that answers with the next job id. *)
Definition counting_uploader : @UploaderRunner unit unit Remote :=
  λ basedir t kvs fs rem, (Ok (tt, rem, tt), fs, (rem + 1)%Z).

Definition failing_uploader : @UploaderRunner unit unit Remote :=
  λ basedir t kvs fs rem, (Raise (Error "upload failed"), fs, rem).

Definition transaction : Transaction :=
  mkTransaction (Int 67) (Int 10) (Int 54) (Str "1234a").

Definition models : @CloudEventsModels json File := models_of transaction ["a.txt"].

(** An event of an upload tagged [uppercase_text = False]. *)
Definition event : json :=
  JObject [("eventType", JString "org.pacifica.metadata.ingest");
           ("data", JArray [Json.tkv_record "uppercase_text" "False"])].

(** An event that carries both values of the flag. *)
Definition mixed_event : json :=
  JObject [("data", JArray [Json.tkv_record "uppercase_text" "True";
                            Json.tkv_record "uppercase_text" "False"])].

Definition start : @world File Remote := mkWorld Fs.empty 7%Z [].

(** The handler on a downloader with named file objects, on one that
    opens the downloaded paths with the built-in [open], on one whose
    service is down, and on an uploader that fails. *)
Definition named_handler : @SimpleEventHandler File unit unit Remote :=
  mkSimpleEventHandler named_downloader counting_uploader.

Definition builtin_handler : @SimpleEventHandler File unit unit Remote :=
  mkSimpleEventHandler builtin_downloader counting_uploader.

Definition offline_handler : @SimpleEventHandler File unit unit Remote :=
  mkSimpleEventHandler failing_downloader counting_uploader.

Definition rejected_handler : @SimpleEventHandler File unit unit Remote :=
  mkSimpleEventHandler named_downloader failing_uploader.


(** The world that a handler leaves when it handles [event] from
    [start], and what it returns or raises. *)
Definition finish (self : @SimpleEventHandler File unit unit Remote) : @world File Remote :=
  (handle (models := models) self event start).2.

Definition answer (self : @SimpleEventHandler File unit unit Remote) : result value :=
  (handle (models := models) self event start).1.

End Scenario.

(* ===================================================================== *)
(** ** The other cells of the notebook                                    *)
(* ===================================================================== *)

(** Built-in string operations that the cells use. *)
Module Str.

(** [s.find(c)] for a one-character [c]: the index of the first
    occurrence, or [-1]. *)
Fixpoint find_from (c : ascii) (s : string) (i : Z) : Z :=
  match s with
  | EmptyString => (-1)%Z
  | String x s' => if Ascii.eqb x c then i else find_from c s' (i + 1)%Z
  end.

Definition find (c : ascii) (s : string) : Z := find_from c s 0.

(** How a slice bound is adjusted to a sequence of length [n]: a
    negative bound counts from the end, and both ends are clipped. *)
Definition adjust (n i : Z) : Z :=
  if (i <? 0)%Z then Z.max (i + n) 0 else Z.min i n.

(** [s[a:b]]. *)
Definition slice (s : string) (a b : Z) : string :=
  let n := Z.of_nat (String.length s) in
  let lo := adjust n a in
  let hi := adjust n b in
  substring (Z.to_nat lo) (Z.to_nat (hi - lo)) s.

(** [s.count(c)] for a one-character [c]. *)
Fixpoint count (c : ascii) (s : string) : nat :=
  match s with
  | EmptyString => 0
  | String x s' => (if Ascii.eqb x c then 1 else 0) + count c s'
  end.

End Str.

Module Notebook.

(** The exceptions of the cells: the built-in ones by name, and those
    of the file system and of the packages. *)
Inductive exn : Type :=
| AttributeError
| AssertionError
| IndexError
| KeyError
| TypeError
| Other (e : Py.exn).

Inductive outcome (A : Type) : Type :=
| Return (a : A)
| Throw (e : exn).
Arguments Return {A} a.
Arguments Throw {A} e.

(** *** Actually Upload Data: the JSON object in the captured output *)

(** [stdout_buf.getvalue()[json_obj_start:json_obj_end+1]] with
    [json_obj_start = ....find('{')] and [json_obj_end = ....find('}')]. *)
Definition json_object_text (stdout : string) : string :=
  let json_obj_start := Str.find "{" stdout in
  let json_obj_end := Str.find "}" stdout in
  Str.slice stdout json_obj_start (json_obj_end + 1).

(** *** Trigger Workflow with Upload: the uploader configuration *)

Definition uploader_json : string := OsPath.join "pacifica-cli" "uploader.json".

Definition uploader_notify_json : string :=
  OsPath.join "pacifica-cli" "uploader-notify.json".

(** The dictionary that the cell appends. *)
Definition trigger : json :=
  JObject [("destinationTable", JString "TransactionKeyValue");
           ("key", JString "uppercase_text");
           ("metaID", JString "uppercase-tkv");
           ("query_results", JArray []);
           ("value", JString "False")].

(** [data.append(x)]: lists have the method, the other JSON values do
    not. *)
Definition append (data x : json) : outcome json :=
  match data with
  | JArray items => Return (JArray (items ++ [x]))
  | _ => Throw AttributeError
  end.

(** [open(p, 'r')] followed by [read()]. *)
Definition open_read (p : string) (fs : FS) : outcome string :=
  if bool_decide (p ∈ dirs fs) then Throw (Other (Py.IsADirectoryError p))
  else match files fs !! p with
       | Some text => Return text
       | None => Throw (Other (Fs.missing p fs))
       end.

Section Config.

(** [json.loads] and [json.dumps]. *)
Context (loads : string → outcome json) (dumps : json → string).

(** The cell: read [uploader.json], append the trigger, write
    [uploader-notify.json]. *)
Definition write_uploader_notify (fs : FS) : outcome unit * FS :=
  match open_read uploader_json fs with
  | Throw e => (Throw e, fs)
  | Return text =>
      match loads text with
      | Throw e => (Throw e, fs)
      | Return uploader_data =>
          match append uploader_data trigger with
          | Throw e => (Throw e, fs)
          | Return uploader_data' =>
              match Fs.open_w uploader_notify_json fs with
              | (Py.Raise e, fs') => (Throw (Other e), fs')
              | (Py.Ok _, fs') =>
                  (Return tt, Fs.write_text uploader_notify_json (dumps uploader_data') fs')
              end
          end
      end
  end.

End Config.

(** *** Dispatcher Checks *)

Definition bind {A B} (m : outcome A) (k : A → outcome B) : outcome B :=
  match m with
  | Return a => k a
  | Throw e => Throw e
  end.

(** What [requests.get] returns: the status code, and what [json()]
    gives. *)
Record response : Type := mkResponse {
  status_code : Z;
  json_body : outcome json
}.

(** [assert b]. *)
Definition assert_ (b : bool) : outcome unit :=
  if b then Return tt else Throw AssertionError.

(** The truth value of a JSON value as a Python object. *)
Definition truthy (v : json) : bool :=
  match v with
  | JNull => false
  | JBool b => b
  | JNumber z => negb (z =? 0)%Z
  | JString s => negb (String.eqb s "")
  | JArray items => match items with [] => false | _ :: _ => true end
  | JObject members => match members with [] => false | _ :: _ => true end
  end.

(** [v[i]] for an index [i] that is not negative. *)
Definition getitem_index (i : nat) (v : json) : outcome json :=
  match v with
  | JArray items =>
      match nth_error items i with
      | Some x => Return x
      | None => Throw IndexError
      end
  | JString s =>
      match String.get i s with
      | Some c => Return (JString (String c EmptyString))
      | None => Throw IndexError
      end
  | JObject _ => Throw KeyError
  | _ => Throw TypeError
  end.

(** [v[k]] for a string [k]. *)
Definition getitem_key (k : string) (v : json) : outcome json :=
  match v with
  | JObject members =>
      match Json.assoc k members with
      | Some x => Return x
      | None => Throw KeyError
      end
  | _ => Throw TypeError
  end.

Definition dispatcher_url : string := "http://127.0.0.1:8080".

Section Checks.

(** [requests.get] on a URL, and [str] as [format] applies it. *)
Context (get : string → outcome response) (str : json → string).

Notation "'let*' x ':=' m 'in' k" := (bind m (λ x, k))
  (at level 10, x name, m at level 100, k at level 200).

(** The cell that makes sure the dispatcher ran successfully. *)
Definition dispatcher_checks : outcome unit :=
  let* resp := get dispatcher_url in
  let* _ := assert_ (status_code resp =? 200)%Z in
  let* body := json_body resp in
  let* _ := assert_ (truthy body) in
  let* body := json_body resp in
  let* task := getitem_index 1 body in
  let* task_id := getitem_key "taskID" task in
  let* resp := get (dispatcher_url +:+ "/get/" +:+ str task_id) in
  let* _ := assert_ (status_code resp =? 200)%Z in
  let* body := json_body resp in
  let* status := getitem_key "taskStatus" body in
  assert_ (Json.is_string "200 OK" status).

End Checks.

End Notebook.

(* ===================================================================== *)
(** ** Vocabulary for the file system around the handler                  *)
(* ===================================================================== *)

(** The two file systems hold the same at the path. *)
Definition same_at (p : string) (fs fs' : FS) : Prop :=
  files fs !! p = files fs' !! p ∧ (p ∈ dirs fs ↔ p ∈ dirs fs').

(** The two file systems hold the same everywhere but at [d] and
    below it. *)
Definition unchanged_outside (d : string) (fs fs' : FS) : Prop :=
  ∀ p, OsPath.is_under d p = false → same_at p fs fs'.

(** Nothing lies below a temporary name that is not in use. *)
Definition no_strays (fs : FS) : Prop :=
  ∀ k p, Fs.exists_ fs (Fs.candidate k) = false →
         OsPath.is_under (Fs.candidate k) p = true → Fs.exists_ fs p = false.

Section Runners.
Import Py.
Context {File Bundle State Remote : Type}.

(** Openers whose file objects have relative names. *)
Definition relative_names (ops : list opener) : Prop :=
  Forall (λ op : opener, ∀ fs0 f, op fs0 = Ok f →
            OsPath.startswith_sep (name f) = false) ops.

(** Openers whose file objects are named by a relative path in normal
    form. *)
Definition normal_names (ops : list opener) : Prop :=
  Forall (λ op : opener, ∀ fs0 f, op fs0 = Ok f → OsPath.normal (name f) = true) ops.

(** A downloader that, given a temporary directory and the file list
    [fl], changes nothing outside the directory, keeps the directory,
    and hands back file objects that are named by relative paths in
    normal form. *)
Definition tidy_downloader (runner : @DownloaderRunner File Remote) (fl : list File) : Prop :=
  ∀ k fs rem r fs' rem',
    @download _ _ runner (Fs.candidate k) fl fs rem = (r, fs', rem') →
    unchanged_outside (Fs.candidate k) fs fs' ∧
    (Fs.candidate k ∈ dirs fs → Fs.candidate k ∈ dirs fs') ∧
    ∀ ops, r = Ok ops → normal_names ops.

(** An uploader that leaves the local file system as it is. *)
Definition reading_uploader (runner : @UploaderRunner Bundle State Remote) : Prop :=
  ∀ d t kvs fs rem r fs' rem',
    @upload _ _ _ runner d t kvs fs rem = (r, fs', rem') → fs' = fs.

(** The calls of the loop, with the path of every write. *)
Definition write_call (d : string) (c : @call File) : Prop :=
  match c with
  | Opened _ => True
  | Written f _ p => p = OsPath.join d (name f)
  | _ => False
  end.

End Runners.

(** Inputs for the cells. *)
Module Cases.
Import Notebook.

(** What the upload command printed. *)
Definition stdout : string := "uploading 1 file {job_id: 105, state: OK} done".

(** An output whose object holds an object. *)
Definition nested_stdout : string := "{job: {id: 105}, state: OK}".

Definition uploader_text : string := "[theme]".

Definition theme : json :=
  JObject [("destinationTable", JString "Transactions.project"); ("metaID", JString "ProjectByInstrument")].

(** A serialiser that tells lists by their length, and a parser that
    knows the original configuration and the one with the trigger. *)
Definition dumps (v : json) : string :=
  match v with
  | JArray items => "list of " +:+ pretty (length items)
  | _ => "no list"
  end.

Definition loads (text : string) : outcome json :=
  if String.eqb text uploader_text then Return (JArray [theme])
  else if String.eqb text "list of 2" then Return (JArray [theme; trigger])
  else if String.eqb text "{}" then Return (JObject [])
  else Throw (Other (Py.Error "JSONDecodeError")).

(** A working directory with the configuration of the uploader. *)
Definition cwd : FS :=
  Fs.write_text uploader_json uploader_text (Fs.mkdir "pacifica-cli" Fs.empty).

(** The same with an object in place of the list. *)
Definition cwd_with_object : FS :=
  Fs.write_text uploader_json "{}" (Fs.mkdir "pacifica-cli" Fs.empty).

(** A dispatcher that lists two tasks and knows the status of both. *)
Definition task (id : string) : json := JObject [("taskID", JString id)].

Definition str (v : json) : string :=
  match v with
  | JString s => s
  | JNumber z => pretty z
  | _ => "None"
  end.

Definition get (tasks : list json) (url : string) : outcome response :=
  if String.eqb url dispatcher_url then Return (mkResponse 200 (Return (JArray tasks)))
  else if String.eqb url (dispatcher_url +:+ "/get/first")
  then Return (mkResponse 200 (Return (JObject [("taskStatus", JString "200 OK")])))
  else if String.eqb url (dispatcher_url +:+ "/get/second")
  then Return (mkResponse 200 (Return (JObject [("taskStatus", JString "500 Internal Server Error")])))
  else Return (mkResponse 404 (Throw (Other (Py.Error "JSONDecodeError")))).

(** Model classes that cannot read the key-values of the event. *)
Definition unreadable_key_values : @CloudEventsModels json Scenario.File :=
  {| Transaction_from_cloudevents_model := λ _, Py.Ok Scenario.transaction;
     TransactionKeyValue_from_cloudevents_model := λ _, Py.Raise (Py.Error "key-values");
     File_from_cloudevents_model := λ _, Py.Ok ["a.txt"] |}.

(** Two file objects with one name, and a world with an uploader
    directory to rewrite them into. *)
Definition twins : list opener :=
  [ (λ _, Py.Ok (mkTextIO "a.txt" (λ _, Py.Ok "first")));
    (λ _, Py.Ok (mkTextIO "a.txt" (λ _, Py.Ok "second"))) ].

Definition staging : @world Scenario.File Scenario.Remote :=
  mkWorld (Fs.mkdir (Fs.candidate 1) Fs.empty) 7%Z [].

(** A world with a file outside every temporary directory. *)
Definition served : @world Scenario.File Scenario.Remote :=
  mkWorld (Fs.write_text "/srv/data.txt" "hello" (Fs.mkdir "/srv" Fs.empty)) 7%Z [].

End Cases.

Example join_rel : OsPath.join "/tmp/tmp1" "a.txt" = "/tmp/tmp1/a.txt".
Proof. reflexivity. Qed.
Example join_abs : OsPath.join "/tmp/tmp1" "/tmp/tmp0/a.txt" = "/tmp/tmp0/a.txt".
Proof. reflexivity. Qed.
Example dirname_ex : OsPath.dirname "/tmp/tmp1/a.txt" = "/tmp/tmp1"
  /\ OsPath.dirname "/a" = "/" /\ OsPath.dirname "a" = "" /\ OsPath.dirname "/tmp/x/" = "/tmp/x"
  /\ OsPath.basename "/tmp/x/" = "" /\ OsPath.basename "/tmp/x/b" = "b" /\ OsPath.basename "b" = "b".
Proof. repeat split; reflexivity. Qed.
Example upper_ex : Py.upper_ascii_text "hello, World 1" = "HELLO, WORLD 1".
Proof. reflexivity. Qed.
Example ancestors_ex :
  OsPath.ancestors "/tmp/tmp1/a.txt" = ["/tmp/tmp1"; "/tmp"; "/"]
  /\ OsPath.ancestors "pacifica-cli/uploader.json" = ["pacifica-cli"; ""]
  /\ OsPath.ancestors "/" = [].
Proof. repeat split; reflexivity. Qed.
Example normal_ex :
  OsPath.components "data/a.txt" = ["data"; "a.txt"]
  /\ OsPath.components "/tmp//a/" = [""; "tmp"; ""; "a"; ""]
  /\ OsPath.normal "a.txt" = true /\ OsPath.normal "data/a.txt" = true
  /\ OsPath.normal "../a.txt" = false /\ OsPath.normal "./a.txt" = false
  /\ OsPath.normal "data//a.txt" = false /\ OsPath.normal "data/" = false
  /\ OsPath.normal ".." = false /\ OsPath.normal "." = false /\ OsPath.normal "" = false
  /\ OsPath.normal "/tmp/tmp0/a.txt" = false.
Proof. repeat split; reflexivity. Qed.

Example mkdtemp_ex : fst (Fs.mkdtemp (Fs.mkdir "/tmp/tmp0" Fs.empty)) = Py.Ok "/tmp/tmp1".
Proof. vm_compute. reflexivity. Qed.
Example rmtree_ex :
  let fs := Fs.write_text "/tmp/tmp0/a" "x" (Fs.mkdir "/tmp/tmp0" (Fs.mkdir "/tmp/tmp00" Fs.empty)) in
  snd (Fs.rmtree "/tmp/tmp0" fs) = Fs.mkdir "/tmp/tmp00" Fs.empty.
Proof. vm_compute. reflexivity. Qed.

Example open_w_ex :
  let fs := Fs.write_text "/srv/data.txt" "hello" (Fs.mkdir "/srv" Fs.empty) in
  fst (Fs.open_w "/srv/data.txt/x" fs) = Py.Raise (Py.NotADirectoryError "/srv/data.txt/x")
  /\ fst (Fs.open_w "/nowhere/x" fs) = Py.Raise (Py.FileNotFoundError "/nowhere/x")
  /\ fst (Fs.open_w "/srv" fs) = Py.Raise (Py.IsADirectoryError "/srv")
  /\ fst (Fs.open_w "/srv/" fs) = Py.Raise (Py.IsADirectoryError "/srv/")
  /\ fst (Fs.open_w "/srv/new.txt" fs) = Py.Ok tt.
Proof. vm_compute. repeat split. Qed.

(* ===================================================================== *)
(** ** Facts about paths and the file system                              *)
(* ===================================================================== *)

Lemma is_under_refl d : OsPath.is_under d d = true.
Proof. unfold OsPath.is_under. by rewrite String.eqb_refl. Qed.

Lemma remove_tree_dirs d fs p :
  p ∈ dirs (Fs.remove_tree d fs) ↔ p ∈ dirs fs ∧ OsPath.is_under d p = false.
Proof. unfold Fs.remove_tree; simpl. rewrite elem_of_filter. tauto. Qed.

Lemma rmtree_gone d fs : d ∉ dirs (Fs.rmtree d fs).2.
Proof.
  unfold Fs.rmtree. case_bool_decide as Hd; cbn [snd].
  - rewrite remove_tree_dirs, is_under_refl. intros [_ ?]; discriminate.
  - by case_bool_decide.
Qed.

Lemma rmtree_dirs_subseteq d fs : dirs (Fs.rmtree d fs).2 ⊆ dirs fs.
Proof.
  unfold Fs.rmtree. case_bool_decide; cbn [snd].
  - intros p. rewrite remove_tree_dirs. tauto.
  - by case_bool_decide.
Qed.

Lemma missing_cases p fs :
  Fs.missing p fs = Py.FileNotFoundError p ∨ Fs.missing p fs = Py.NotADirectoryError p.
Proof. unfold Fs.missing. destruct (existsb _ _); auto. Qed.

Lemma rmtree_outcome d fs e :
  (Fs.rmtree d fs).1 = Py.Raise e →
  e = Py.FileNotFoundError d ∨ e = Py.NotADirectoryError d.
Proof.
  unfold Fs.rmtree. repeat case_bool_decide; simpl; intros [= <-]; auto.
  apply missing_cases.
Qed.

Lemma append_inv_head (a b c : string) : a +:+ b = a +:+ c → b = c.
Proof. induction a as [|x a IH]; simpl; [done|]. intros [= ?]; auto. Qed.

(** A path in normal form is a relative name. *)
Lemma normal_relative n : OsPath.normal n = true → OsPath.startswith_sep n = false.
Proof.
  destruct n as [|c n]; [done|]. unfold OsPath.normal.
  cbn [OsPath.components OsPath.startswith_sep].
  destruct (Ascii.eqb c OsPath.sep); [|done]. by cbn [forallb].
Qed.

Lemma normal_names_relative (ops : list opener) : normal_names ops → relative_names ops.
Proof.
  intros H. eapply Forall_impl; [exact H|].
  intros op Hop fs0 f Hf. by apply normal_relative, (Hop fs0).
Qed.

(** Joining relative names to one directory keeps them apart. *)
Lemma join_relative_inj d n1 n2 :
  OsPath.startswith_sep n1 = false → OsPath.startswith_sep n2 = false →
  OsPath.join d n1 = OsPath.join d n2 → n1 = n2.
Proof.
  unfold OsPath.join. intros -> ->.
  destruct (_ || _)%bool; intros H.
  - by apply append_inv_head in H.
  - apply append_inv_head in H. by injection H.
Qed.

Lemma first_free_candidate fs0 fuel : ∀ n d,
  Fs.first_free fs0 n fuel = Some d → ∃ k, d = Fs.candidate k.
Proof.
  induction fuel as [|fuel IH]; intros n d; cbn [Fs.first_free]; [done|].
  destruct (Fs.exists_ fs0 (Fs.candidate n)); [by apply IH|].
  intros [= <-]. by exists n.
Qed.

Lemma pretty_N_go_component x : ∀ s, component s → component (pretty_N_go x s).
Proof.
  induction (N.lt_wf_0 x) as [x _ IH]; intros s Hs.
  destruct (decide (x = 0)%N) as [->|Hx]; [by rewrite pretty_N_go_0|].
  rewrite pretty_N_go_step by lia. apply IH.
  { apply N.div_lt; lia. }
  split; [done|]. destruct Hs as [_ Hs]. cbn [OsPath.has_sep]. rewrite Hs.
  unfold pretty_N_char. by repeat case_match.
Qed.

Lemma pretty_nat_component (n : nat) : component (pretty n).
Proof.
  unfold pretty, pretty_nat, pretty, pretty_N. case_decide; [done|].
  rewrite pretty_N_go_step by lia. apply pretty_N_go_component.
  split; [done|]. cbn [OsPath.has_sep]. unfold pretty_N_char. by repeat case_match.
Qed.

Lemma endswith_sep_component s : component s → OsPath.endswith_sep s = false.
Proof.
  intros [_ Hs]. induction s as [|c s IH]; [done|].
  cbn [OsPath.has_sep] in Hs. apply orb_false_iff in Hs as [Hc Hs].
  cbn [OsPath.endswith_sep]. destruct s; [done|]. by apply IH.
Qed.

Lemma endswith_sep_app a b : b ≠ "" → OsPath.endswith_sep (a +:+ b) = OsPath.endswith_sep b.
Proof.
  intros Hb. induction a as [|c a IH]; [done|].
  change (String c a +:+ b) with (String c (a +:+ b)).
  destruct (a +:+ b) as [|c' rest] eqn:Hab.
  - destruct a, b; done.
  - rewrite <- IH. done.
Qed.

(** A relative name joined to a temporary directory lies directly in it. *)
Lemma join_candidate k n :
  OsPath.startswith_sep n = false →
  OsPath.join (Fs.candidate k) n = Fs.candidate k +:+ "/" +:+ n.
Proof.
  intros Hn. unfold OsPath.join. rewrite Hn. unfold Fs.candidate.
  pose proof (pretty_nat_component k) as Hc.
  rewrite endswith_sep_app by apply Hc.
  by rewrite endswith_sep_component.
Qed.

(* ===================================================================== *)
(** ** The loop of the handler                                            *)
(* ===================================================================== *)

Section HandlerFacts.
Import Py.
Context {Event File Bundle State Remote : Type}.
Context {models : @CloudEventsModels Event File}.
Context {unicode : Unicode}.

Abbreviation world := (@world File Remote).
Abbreviation call := (@call File).
Abbreviation handler := (@SimpleEventHandler File Bundle State Remote).

Lemma open_w_dirs p fs0 : dirs (Fs.open_w p fs0).2 = dirs fs0.
Proof. unfold Fs.open_w. repeat case_match; done. Qed.

Lemma transform_ok d op (w w' : world) :
  transform d op w = (Ok tt, w') →
  ∃ f text fs1,
    op (fs w) = Ok f ∧
    Fs.open_w (OsPath.join d (name f)) (fs w) = (Ok tt, fs1) ∧
    read f fs1 = Ok text ∧
    w' = mkWorld (Fs.write_text (OsPath.join d (name f)) (upper text) fs1)
                 (remote w) (trace w ++ rewritten d (f, text)).
Proof.
  unfold transform, bind, call_opener, open_w, call_read, write_close, log.
  destruct (op (fs w)) as [f|e] eqn:Hop; [|done]. cbn [fs remote trace].
  destruct (Fs.open_w _ (fs w)) as [[[]|e] fs1] eqn:Hopen; [|done].
  cbn [fs remote trace].
  destruct (read f fs1) as [text|e] eqn:Hread; [|done].
  intros [= <-]. exists f, text, fs1. repeat split; try done.
  unfold rewritten, target. cbn [fst snd]. by rewrite <- app_assoc.
Qed.

Lemma transform_any d op (w w' : world) r :
  transform d op w = (r, w') →
  remote w' = remote w ∧ dirs (fs w') = dirs (fs w) ∧
  ∃ new, trace w' = trace w ++ new ∧ Forall loop_call new.
Proof.
  unfold transform, bind, call_opener, open_w, call_read, write_close, log.
  destruct (op (fs w)) as [f|e] eqn:Hop.
  2:{ intros [= <- <-]. repeat split; try done. exists []. by rewrite app_nil_r. }
  cbn [fs remote trace].
  pose proof (open_w_dirs (OsPath.join d (name f)) (fs w)) as Hd.
  destruct (Fs.open_w _ (fs w)) as [[[]|e] fs1] eqn:Hopen; cbn [snd] in Hd.
  2:{ intros [= <- <-]. repeat split; try done. exists [Opened f].
      split; [done|]. by repeat constructor. }
  cbn [fs remote trace].
  destruct (read f fs1) as [text|e] eqn:Hread.
  - intros [= <- <-]. repeat split; try done.
    exists [Opened f; Written f text (OsPath.join d (name f))].
    cbn [trace]. rewrite <- app_assoc. split; [done|]. by repeat constructor.
  - intros [= <- <-]. repeat split; try done. exists [Opened f].
    split; [done|]. by repeat constructor.
Qed.

Lemma for_each_any d ops : ∀ (w w' : world) r,
  for_each (transform d) ops w = (r, w') →
  remote w' = remote w ∧ dirs (fs w') = dirs (fs w) ∧
  ∃ new, trace w' = trace w ++ new ∧ Forall loop_call new.
Proof.
  induction ops as [|op ops IH]; intros w w' r; cbn [for_each].
  - intros [= <- <-]. repeat split; try done. exists []. by rewrite app_nil_r.
  - unfold bind at 1. destruct (transform d op w) as [[[]|e] w1] eqn:Hstep.
    + apply transform_any in Hstep as (Hr1 & Hd1 & new1 & Ht1 & Hl1).
      intros Hrest. apply IH in Hrest as (Hr2 & Hd2 & new2 & Ht2 & Hl2).
      repeat split; [congruence..|].
      exists (new1 ++ new2). rewrite Ht2, Ht1, <- app_assoc. split; [done|].
      by apply Forall_app.
    + intros [= <- <-]. by apply transform_any in Hstep.
Qed.

(** A loop that ends normally has rewritten one file per opener, each
    file object being what its opener returned and each text what the
    file object's [read] returned; nothing else in the file system
    changed, and when the targets differ every one of them holds the
    upper-case text. *)
Lemma for_each_ok d ops : ∀ (w w' : world),
  for_each (transform d) ops w = (Ok tt, w') →
  ∃ fws : list (TextIO * string),
    Forall2 (λ (op : opener) fw,
               ∃ fs0 fs1, op fs0 = Ok fw.1 ∧ read fw.1 fs1 = Ok fw.2) ops fws ∧
    trace w' = trace w ++ flat_map (rewritten d) fws ∧
    (∀ q, q ∉ map (target d) fws → files (fs w') !! q = files (fs w) !! q) ∧
    (NoDup (map (target d) fws) →
     ∀ fw, fw ∈ fws → files (fs w') !! target d fw = Some (upper fw.2)).
Proof.
  induction ops as [|op ops IH]; intros w w'; cbn [for_each].
  - intros [= <-]. exists []. repeat split; try done.
    + by rewrite app_nil_r.
    + intros _ fw Hin. by apply elem_of_nil in Hin.
  - unfold bind at 1. destruct (transform d op w) as [[[]|e] w1] eqn:Hstep; [|done].
    apply transform_ok in Hstep as (f & text & fs1 & Hop & Hopen & Hread & ->).
    intros Hrest. apply IH in Hrest as (fws & Hall & Htr & Hframe & Hcont).
    cbn [fs trace] in *.
    assert (Hfs1 : files fs1 = <[OsPath.join d (name f) := ""]> (files (fs w))).
    { revert Hopen. unfold Fs.open_w. repeat case_match; intros [= <-]; done. }
    exists ((f, text) :: fws). repeat split.
    + constructor; [|done]. exists (fs w), fs1. done.
    + rewrite Htr, <- app_assoc. done.
    + intros q Hq. cbn [map] in Hq. apply not_elem_of_cons in Hq as [Hne Hq].
      rewrite (Hframe q Hq). unfold Fs.write_text; cbn [files].
      unfold target in Hne; cbn [fst] in Hne.
      rewrite lookup_insert_ne by done. rewrite Hfs1.
      by rewrite lookup_insert_ne.
    + cbn [map]. intros Hnd fw Hin. apply NoDup_cons in Hnd as [Hnotin Hnd].
      apply elem_of_cons in Hin as [-> | Hin].
      * rewrite (Hframe _ Hnotin). unfold Fs.write_text, target; cbn [files fst snd].
        by rewrite lookup_insert_eq.
      * by apply Hcont.
Qed.

(* ===================================================================== *)
(** ** The shape of every run of [handle]                                 *)
(* ===================================================================== *)

Lemma handle_unfold (self : handler) (event : Event) :
  handle self event =
  bind (lift (Transaction_from_cloudevents_model event)) (λ ti,
  bind (lift (TransactionKeyValue_from_cloudevents_model event)) (λ _,
  bind (lift (File_from_cloudevents_model event)) (λ fl,
  with_TemporaryDirectory (λ d1, with_TemporaryDirectory (λ d2,
    round_trip self ti fl d1 d2))))).
Proof. reflexivity. Qed.

Lemma round_trip_run (self : handler) ti fl d1 d2 (w w' : world) r :
  round_trip self ti fl d1 d2 w = (r, w') →
  ∃ new, trace w' = trace w ++ new ∧ round_trip_shape ti fl d1 d2 r new.
Proof.
  unfold round_trip. unfold bind at 1. unfold call_download, log.
  destruct (download d1 fl (fs w) (remote w)) as [[[ops|e] fs1] rem1] eqn:Hdl;
    cbn [outcome fs remote trace].
  2:{ intros [= <- <-]. eexists. split; [done|]. constructor. }
  unfold bind at 1.
  destruct (for_each (transform d2) ops _) as [[[]|e] w2] eqn:Hloop.
  2:{ intros [= <- <-]. apply for_each_any in Hloop as (_ & _ & new & Ht & Hl).
      cbn [trace] in Ht. exists (Download d1 fl None :: new).
      rewrite Ht, <- app_assoc. split; [done|]. by constructor. }
  pose proof Hloop as Hany. apply for_each_any in Hany as (_ & _ & _).
  apply for_each_ok in Hloop as (fws & Hall & Ht & _ & Hcont). cbn [trace] in Ht.
  assert (Hin : rewritten_in d2 fws (fs w2)).
  { split; [|done]. clear -Hall. induction Hall as [|op fw ops fws (fs0 & fs1' & _ & ?)];
      constructor; eauto. }
  unfold bind, call_upload, log.
  destruct (upload d2 _ _ (fs w2) (remote w2)) as [[[[[b j] st]|e] fs3] rem3] eqn:Hul;
    cbn [job_id_of fs remote trace]; unfold ret; intros [= <- <-]; cbn [trace].
  - eexists. rewrite Ht, <- !app_assoc. split; [reflexivity|]. by constructor.
  - eexists. rewrite Ht, <- !app_assoc. split; [reflexivity|]. by constructor.
Qed.

Lemma exits_trans {A} (r1 r2 r3 : result A) : exits r1 r2 → exits r2 r3 → exits r1 r3.
Proof. intros [-> | H1] [-> | H3]; unfold exits; auto. Qed.

Lemma with_TemporaryDirectory_run {A} (body : string → M A) (w w' : world) r :
  with_TemporaryDirectory body w = (r, w') →
  (r = Raise FileExistsError ∧ trace w' = trace w) ∨
  ∃ d w1 rb w2,
    trace w1 = trace w ++ [Mkdtemp d] ∧
    body d w1 = (rb, w2) ∧
    trace w' = trace w2 ++ [Cleanup d] ∧
    (∃ k, d = Fs.candidate k) ∧
    (d ∉ dirs (fs w')) ∧ (dirs (fs w') ⊆ dirs (fs w2)) ∧
    exits rb r ∧ exits_from [d] rb r.
Proof.
  unfold with_TemporaryDirectory, TemporaryDirectory, Fs.mkdtemp.
  destruct (Fs.first_free (fs w) 0 Fs.TMP_MAX) as [d|] eqn:Hfree.
  2:{ intros [= <- <-]. by left. }
  apply first_free_candidate in Hfree.
  unfold log; cbn [fs remote trace]. set (w1 := mkWorld _ _ _).
  destruct (body d w1) as [rb w2] eqn:Hbody. intros H. right.
  unfold cleanup in H. unfold log in H; cbn [fs remote trace] in H.
  pose proof (rmtree_gone d (fs w2)) as Hgone.
  pose proof (rmtree_dirs_subseteq d (fs w2)) as Hsub.
  pose proof (rmtree_outcome d (fs w2)) as Hout.
  destruct (Fs.rmtree d (fs w2)) as [[[]|e] fs3]; cbn [fst snd] in *;
    injection H as <- <-; exists d, w1, rb, w2; cbn [fs trace];
    repeat split; try done.
  - by left.
  - by left.
  - right. exists e. split; [done|]. exists d. by apply Hout.
  - right. exists e. split; [done|]. exists d. split; [apply list_elem_of_here|by apply Hout].
Qed.

Lemma exits_from_trans {A} ds1 ds2 (r1 r2 r3 : result A) :
  exits_from ds1 r1 r2 → exits_from ds2 r2 r3 → exits_from (ds1 ++ ds2) r1 r3.
Proof.
  intros [-> | (e1 & -> & d1 & Hd1 & He1)] [-> | (e3 & -> & d3 & Hd3 & He3)].
  - by left.
  - right. exists e3. split; [done|]. exists d3. split; [|done]. apply elem_of_app. by right.
  - right. exists e1. split; [done|]. exists d1. split; [|done]. apply elem_of_app. by left.
  - right. exists e3. split; [done|]. exists d3. split; [|done]. apply elem_of_app. by right.
Qed.

Lemma calls_of_app (w w' : world) new : trace w' = trace w ++ new → calls_of w w' = new.
Proof. unfold calls_of. intros ->. by rewrite drop_app_length. Qed.

Lemma handle_run (self : handler) event (w w' : world) r :
  handle self event w = (r, w') →
  ∃ new, trace w' = trace w ++ new ∧ handle_shape event r w' new.
Proof.
  rewrite handle_unfold. unfold bind at 1, lift at 1.
  destruct (Transaction_from_cloudevents_model event) as [ti|e] eqn:Hti.
  2:{ intros [= <- <-]. exists []. rewrite app_nil_r. split; [done|].
      eapply models_raised; eauto. }
  unfold bind at 1, lift at 1.
  destruct (TransactionKeyValue_from_cloudevents_model event) as [kvs|e] eqn:Hkv.
  2:{ intros [= <- <-]. exists []. rewrite app_nil_r. split; [done|].
      eapply models_raised; eauto. }
  unfold bind at 1, lift at 1.
  destruct (File_from_cloudevents_model event) as [fl|e] eqn:Hfl.
  2:{ intros [= <- <-]. exists []. rewrite app_nil_r. split; [done|].
      eapply models_raised; eauto. }
  intros H. apply with_TemporaryDirectory_run in H
    as [[-> Ht] | (d1 & w1 & rb1 & w2 & Ht1 & Hbody & Ht' & [k1 ->] & Hgone1 & Hsub1 & Hex1
                   & Hfrom1)].
  { exists []. rewrite app_nil_r. split; [done|]. by apply first_mkdtemp_raised. }
  apply with_TemporaryDirectory_run in Hbody
    as [[-> Ht] | (d2 & w3 & rb2 & w4 & Ht3 & Hbody & Ht2 & [k2 ->] & Hgone2 & Hsub2 & Hex2
                   & Hfrom2)].
  { exists [Mkdtemp (Fs.candidate k1); Cleanup (Fs.candidate k1)].
    rewrite Ht', Ht, Ht1, <- app_assoc. split; [done|].
    destruct Hex1 as [-> | (e & -> & _)]; by eapply second_mkdtemp_raised. }
  apply round_trip_run in Hbody as (inner & Ht4 & Hshape).
  eexists. split.
  2:{ eapply round_trip_ran; eauto using exits_trans.
      exact (exits_from_trans [_] [_] _ _ _ Hfrom2 Hfrom1). }
  rewrite Ht', Ht2, Ht4, Ht3, Ht1. by rewrite <- !app_assoc.
Qed.

Lemma round_trip_shape_calls ti (fl : list File) d1 d2 r (new : list call) :
  round_trip_shape ti fl d1 d2 r new → Forall block_call new.
Proof.
  assert (Hrw : ∀ fws, Forall (@block_call File) (flat_map (rewritten d2) fws)).
  { induction fws as [|fw fws IH]; cbn [flat_map]; [constructor|].
    apply Forall_app. split; [|done]. by repeat constructor. }
  destruct 1 as [e | e loop Hloop | e fws now _ | fws now job_id _].
  - by repeat constructor.
  - constructor; [done|]. eapply Forall_impl; [exact Hloop|]. by intros [].
  - constructor; [done|]. apply Forall_app. split; [done|]. by repeat constructor.
  - constructor; [done|]. apply Forall_app. split; [done|]. by repeat constructor.
Qed.

Lemma handle_calls (self : handler) event (w w' : world) r :
  handle self event w = (r, w') → handle_shape event r w' (calls_of w w').
Proof.
  intros H. apply handle_run in H as (new & Ht & Hshape).
  by rewrite (calls_of_app _ _ _ Ht).
Qed.

Lemma rewritten_loop_calls d fws : Forall (@loop_call File) (flat_map (rewritten d) fws).
Proof.
  induction fws as [|fw fws IH]; cbn [flat_map]; [constructor|].
  apply Forall_app. split; [|done]. by repeat constructor.
Qed.

Lemma loop_call_quiet (c : call) :
  loop_call c → runner_raised c = None ∧ is_upload c = false.
Proof. by destruct c. Qed.

Lemma loop_calls_quiet (l : list call) :
  Forall loop_call l →
  Forall (λ c, runner_raised c = None) l ∧ List.filter is_upload l = [].
Proof.
  induction 1 as [|c l Hc _ [IH1 IH2]]; [by split|].
  apply loop_call_quiet in Hc as [Hr Hu]. split; [by constructor|].
  cbn [List.filter]. by rewrite Hu.
Qed.

(* ===================================================================== *)
(** ** The properties of the handler                                      *)
(* ===================================================================== *)

(** C3: whatever way [handle] ends (normally, or with an exception of
    the model classes, the download, the rewriting loop, the upload or
    a clean-up), no directory that it made with
    [tempfile.TemporaryDirectory] is a directory of the file system it
    leaves behind. *)
Theorem handle_removes_temporary_directories
    (self : handler) (event : Event) (w w' : world) (r : result value) (d : string) :
  handle self event w = (r, w') →
  Mkdtemp d ∈ calls_of w w' →
  d ∉ dirs (fs w').
Proof.
  intros H Hin. apply handle_calls in H.
  destruct H as [e _ _ | _ | d1 e _ Hgone | ti fl k1 k2 rb inner _ _ Hshape _ Hg1 Hg2].
  - by apply elem_of_nil in Hin.
  - by apply elem_of_nil in Hin.
  - rewrite !elem_of_cons, elem_of_nil in Hin.
    destruct Hin as [[= ->] | [[=] | []]]. done.
  - apply round_trip_shape_calls in Hshape.
    rewrite !elem_of_app, !elem_of_cons, !elem_of_nil in Hin.
    destruct Hin as [[[= ->] | [[= ->] | []]] | [Hin | [[=] | [[=] | []]]]]; try done.
    rewrite Forall_forall in Hshape. by apply Hshape in Hin.
Qed.


Lemma upload_call_shape
    (self : handler) (event : Event) (w w' : world) (r : result value)
    d t kvs now answer :
  handle self event w = (r, w') →
  Upload d t kvs now answer ∈ calls_of w w' →
  ∃ ti, Transaction_from_cloudevents_model event = Ok ti ∧
        t = new_transaction ti ∧ kvs = new_key_values ti.
Proof.
  intros H Hin. apply handle_calls in H.
  destruct H as [e0 _ _ | _ | d1 e0 _ Hgone | ti fl k1 k2 rb inner Hti _ Hshape _ _ _].
  - by apply elem_of_nil in Hin.
  - by apply elem_of_nil in Hin.
  - rewrite !elem_of_cons, elem_of_nil in Hin. destruct Hin as [[=] | [[=] | []]].
  - exists ti. split; [done|].
    rewrite !elem_of_app, !elem_of_cons, !elem_of_nil in Hin.
    destruct Hin as [[[=] | [[=] | []]] | [Hin | [[=] | [[=] | []]]]].
    assert (Hloop : ∀ l : list call, Forall loop_call l → Upload d t kvs now answer ∉ l).
    { intros l Hl Hu. rewrite Forall_forall in Hl. by apply Hl in Hu. }
    destruct Hshape as [e0 | e0 loop Hl | e0 fws now0 _ | fws now0 job_id _].
    + rewrite elem_of_cons, elem_of_nil in Hin. destruct Hin as [[=] | []].
    + rewrite elem_of_cons in Hin. destruct Hin as [[=] | Hin]. by apply Hloop in Hin.
    + rewrite elem_of_cons, elem_of_app, elem_of_cons, elem_of_nil in Hin.
      destruct Hin as [[=] | [Hin | [[= -> -> -> -> ->] | []]]]; [|done].
      by apply Hloop in Hin; [|apply rewritten_loop_calls].
    + rewrite elem_of_cons, elem_of_app, elem_of_cons, elem_of_nil in Hin.
      destruct Hin as [[=] | [Hin | [[= -> -> -> -> ->] | []]]]; [|done].
      by apply Hloop in Hin; [|apply rewritten_loop_calls].
Qed.

Lemma handle_ok_shape
    (self : handler) (event : Event) (w w' : world) (v : value) :
  handle self event w = (Ok v, w') →
  v = None_ ∧
  ∃ k1 k2 ti fl fws now job_id,
    Transaction_from_cloudevents_model event = Ok ti ∧
    calls_of w w' =
      [Mkdtemp (Fs.candidate k1); Mkdtemp (Fs.candidate k2);
       Download (Fs.candidate k1) fl None] ++
      flat_map (rewritten (Fs.candidate k2)) fws ++
      [Upload (Fs.candidate k2) (new_transaction ti) (new_key_values ti) now (Ok job_id);
       Cleanup (Fs.candidate k2); Cleanup (Fs.candidate k1)] ∧
    rewritten_in (Fs.candidate k2) fws now.
Proof.
  intros H. apply handle_calls in H.
  destruct H as [e0 ? _ | ? | d1 e0 ? _ | ti fl k1 k2 rb inner Hti _ Hshape Hex _ _];
    try discriminate.
  destruct Hex as [<- | (e & ? & _)]; [|discriminate].
  inversion Hshape as [| | | fws now job_id Hin Hv Hinner]. split; [done|].
  exists k1, k2, ti, fl, fws, now, job_id. repeat split; try done; try apply Hin.
  cbn [app]. by rewrite <- !app_assoc.
Qed.

(** C6, as the code has it: a run of [handle] that ends normally
    returns [None]; the job id that the uploader runner answered with is
    bound to a local name and dropped. *)
Theorem handle_returns_None
    (self : handler) (event : Event) (w w' : world) (v : value) :
  handle self event w = (Ok v, w') →
  v = None_ ∧
  ∃ d t kvs now job_id, Upload d t kvs now (Ok job_id) ∈ calls_of w w'.
Proof.
  intros H. apply handle_ok_shape in H
    as (-> & k1 & k2 & ti & fl & fws & now & job_id & _ & Hcalls & _).
  split; [done|]. eexists _, _, _, now, job_id. rewrite Hcalls.
  rewrite !elem_of_app, !elem_of_cons. right. right. left. reflexivity.
Qed.

(** C8: the transaction of every upload call that [handle] makes has the
    submitter, the instrument and the project of the transaction read off
    the event, and no id: the one other attribute is left at [None]. *)
Theorem upload_transaction_fields
    (self : handler) (event : Event) (w w' : world) (r : result value)
    (d : string) (t : Transaction) (kvs : list TransactionKeyValue) (now : FS)
    (answer : result Z) :
  handle self event w = (r, w') →
  Upload d t kvs now answer ∈ calls_of w w' →
  ∃ ti, Transaction_from_cloudevents_model event = Ok ti ∧
        submitter t = submitter ti ∧
        instrument t = instrument ti ∧
        project t = project ti ∧
        _id t = None_.
Proof.
  intros H Hin. destruct (upload_call_shape _ _ _ _ _ _ _ _ _ _ H Hin) as (ti & Hti & -> & _).
  by exists ti.
Qed.

(** C9: the key-value list of every upload call that [handle] makes is
    the pair [uppercase_text = 'True'] followed by the pair
    [Transactions._id] = the id of the transaction read off the event,
    and nothing else. *)
Theorem upload_key_values
    (self : handler) (event : Event) (w w' : world) (r : result value)
    (d : string) (t : Transaction) (kvs : list TransactionKeyValue) (now : FS)
    (answer : result Z) :
  handle self event w = (r, w') →
  Upload d t kvs now answer ∈ calls_of w w' →
  ∃ ti, Transaction_from_cloudevents_model event = Ok ti ∧
        kvs = [ mkTransactionKeyValue "uppercase_text" (Str "True");
                mkTransactionKeyValue "Transactions._id" (_id ti) ].
Proof.
  intros H Hin. destruct (upload_call_shape _ _ _ _ _ _ _ _ _ _ H Hin) as (ti & Hti & _ & ->).
  by exists ti.
Qed.

End HandlerFacts.

(* ===================================================================== *)
(** ** Concrete runs                                                      *)
(* ===================================================================== *)

Module Runs.
Import Py Scenario.

Lemma handle_answer_finish self :
  handle (models := models) self event start = (answer self, finish self).
Proof. unfold answer, finish. by destruct (handle self event start). Qed.

Example named_run :
  ∃ f now,
    answer named_handler = Ok None_ ∧
    calls_of start (finish named_handler) =
      [ Mkdtemp "/tmp/tmp0"; Mkdtemp "/tmp/tmp1"; Download "/tmp/tmp0" ["a.txt"] None;
        Opened f; Written f "hello" "/tmp/tmp1/a.txt";
        Upload "/tmp/tmp1" (mkTransaction None_ (Int 10) (Int 54) (Str "1234a"))
          [ mkTransactionKeyValue "uppercase_text" (Str "True");
            mkTransactionKeyValue "Transactions._id" (Int 67) ] now (Ok 7%Z);
        Cleanup "/tmp/tmp1"; Cleanup "/tmp/tmp0" ] ∧
    name f = "a.txt" ∧
    map_to_list (files now) = [("/tmp/tmp1/a.txt", "HELLO"); ("/tmp/tmp0/a.txt", "hello")] ∧
    map_to_list (files (fs (finish named_handler))) = [] ∧
    elements (dirs (fs (finish named_handler))) = [].
Proof. vm_compute. eexists _, _. repeat split. Qed.

Example offline_run :
  answer offline_handler = Raise (Error "download failed") ∧
  calls_of start (finish offline_handler) =
    [ Mkdtemp "/tmp/tmp0"; Mkdtemp "/tmp/tmp1";
      Download "/tmp/tmp0" ["a.txt"] (Some (Error "download failed"));
      Cleanup "/tmp/tmp1"; Cleanup "/tmp/tmp0" ] ∧
  elements (dirs (fs (finish offline_handler))) = [].
Proof. vm_compute. repeat split. Qed.

Example rejected_run :
  ∃ f now,
    answer rejected_handler = Raise (Error "upload failed") ∧
    calls_of start (finish rejected_handler) =
      [ Mkdtemp "/tmp/tmp0"; Mkdtemp "/tmp/tmp1"; Download "/tmp/tmp0" ["a.txt"] None;
        Opened f; Written f "hello" "/tmp/tmp1/a.txt";
        Upload "/tmp/tmp1" (mkTransaction None_ (Int 10) (Int 54) (Str "1234a"))
          [ mkTransactionKeyValue "uppercase_text" (Str "True");
            mkTransactionKeyValue "Transactions._id" (Int 67) ] now
          (Raise (Error "upload failed"));
        Cleanup "/tmp/tmp1"; Cleanup "/tmp/tmp0" ] ∧
    elements (dirs (fs (finish rejected_handler))) = [].
Proof. vm_compute. eexists _, _. repeat split. Qed.

End Runs.

(* ===================================================================== *)
(** ** The router and the predicate of the notebook                       *)
(* ===================================================================== *)

Lemma holds_is_tkv (record : json) :
  JsonPath.holds
    (JsonPath.And (JsonPath.Eq ["destinationTable"] "TransactionKeyValue")
       (JsonPath.And (JsonPath.Eq ["key"] "uppercase_text")
                     (JsonPath.Eq ["value"] "False"))) record
  = Json.is_tkv "uppercase_text" "False" record.
Proof.
  unfold Json.is_tkv. cbn [JsonPath.holds JsonPath.follow]. unfold JsonPath.select.
  destruct (Json.member "destinationTable" record) as [t|];
    destruct (Json.member "key" record) as [k|];
    destruct (Json.member "value" record) as [v|]; cbn [flat_map app existsb];
    rewrite ?orb_false_r, ?andb_false_r, ?andb_false_l; try done.
  by rewrite andb_assoc.
Qed.

Lemma filter_step_matches (e : JsonPath.expr) (l : list json) :
  match flat_map (JsonPath.match_ [JsonPath.Filter e]) l with
  | [] => false
  | _ :: _ => true
  end = existsb (JsonPath.holds e) l.
Proof.
  induction l as [|x l IH]; [done|].
  cbn [flat_map existsb JsonPath.match_ JsonPath.step].
  destruct (JsonPath.holds e x); [done|]. exact IH.
Qed.

Lemma uppercase_false_path_matches (event : json) :
  JsonPath.matches uppercase_false_path event = Json.has_tkv "uppercase_text" "False" event.
Proof.
  unfold JsonPath.matches, uppercase_false_path, Json.has_tkv, Json.records.
  cbn [JsonPath.match_ JsonPath.step]. unfold JsonPath.select.
  destruct (Json.member "data" event) as [d|]; [|done].
  cbn [flat_map]. rewrite app_nil_r.
  change (flat_map _ (Json.children d)) with
    (flat_map (JsonPath.match_ [JsonPath.Filter
       (JsonPath.And (JsonPath.Eq ["destinationTable"] "TransactionKeyValue")
          (JsonPath.And (JsonPath.Eq ["key"] "uppercase_text")
                        (JsonPath.Eq ["value"] "False")))]) (Json.children d)).
  rewrite filter_step_matches.
  induction (Json.children d) as [|x l IH]; [done|].
  cbn [existsb]. by rewrite holds_is_tkv, IH.
Qed.

(** C2, as the code has it: the router of the notebook invokes the
    handler on an event exactly when the data of the event holds a
    [TransactionKeyValue] record with key [uppercase_text] and value
    ["False"].  An event without such a record is never handed to the
    handler; that is so for the event of the handler's own upload, whose
    key-value records are [uppercase_text = "True"] and
    [Transactions._id]. *)
Theorem router_invokes_handler_on_flag_false {Handler : Type} (h : Handler) :
  (∀ event : json,
     Router.match_ (ROUTER h) event =
     if Json.has_tkv "uppercase_text" "False" event then [h] else []) ∧
  (∀ (ti : Transaction) (envelope : list (string * json)),
     Router.match_ (ROUTER h)
       (JObject (("data", JArray (map Json.key_value_record (new_key_values ti)))
                 :: envelope)) = []).
Proof.
  assert (Hmatch : ∀ event : json,
     Router.match_ (ROUTER h) event =
     if Json.has_tkv "uppercase_text" "False" event then [h] else []).
  { intros event. unfold Router.match_, ROUTER, Router.add_route, Router.new.
    cbn [Router.routes app]. rewrite <- uppercase_false_path_matches.
    rewrite filter_cons, filter_nil. cbn [fst].
    destruct (JsonPath.matches uppercase_false_path event); by case_decide. }
  split; [done|]. intros ti envelope. rewrite Hmatch.
  destruct ti as [i s0 ins pr]. by destruct i.
Qed.

(* ===================================================================== *)
(** ** The claims on concrete runs                                        *)
(* ===================================================================== *)

Section Concrete.
Import Py Scenario.
#[local] Existing Instance models.

(** C1 as stated fails on two runs for an event tagged
    [uppercase_text = False]: with the download service down the handler
    makes no upload at all; and with file objects from the built-in
    [open] the one upload is given a file system whose only file is the
    emptied download, so no uploaded file holds the upper-case text. *)
Lemma flagged_event_without_upper_case_upload :
  Json.has_tkv "uppercase_text" "False" event = true ∧
  (answer offline_handler = Raise (Error "download failed") ∧
   List.filter is_upload (calls_of start (finish offline_handler)) = []) ∧
  (answer builtin_handler = Ok None_ ∧
   archive "a.txt" = "hello" ∧
   ∃ t kvs now,
     List.filter is_upload (calls_of start (finish builtin_handler)) =
       [Upload "/tmp/tmp1" t kvs now (Ok 7%Z)] ∧
     map_to_list (files now) = [("/tmp/tmp0/a.txt", "")]).
Proof. vm_compute. repeat split. eexists _, _, _. repeat split. Qed.

(** C2 as stated fails on an event that carries both values of the
    flag: it holds [uppercase_text = True] and the router hands it to
    the handler. *)
Lemma mixed_event_is_routed :
  Json.has_tkv "uppercase_text" "True" mixed_event = true ∧
  Router.match_ (ROUTER named_handler) mixed_event = [named_handler].
Proof. split; reflexivity. Qed.

(** C3 on the run whose download raises. *)
Lemma handle_removes_temporary_directories_witness :
  ("/tmp/tmp0" ∉ dirs (fs (finish offline_handler))) ∧
  ("/tmp/tmp1" ∉ dirs (fs (finish offline_handler))).
Proof.
  split.
  - apply (handle_removes_temporary_directories offline_handler event start
             (finish offline_handler) (answer offline_handler) "/tmp/tmp0").
    + vm_compute. reflexivity.
    + vm_compute. apply list_elem_of_here.
  - apply (handle_removes_temporary_directories offline_handler event start
             (finish offline_handler) (answer offline_handler) "/tmp/tmp1").
    + vm_compute. reflexivity.
    + vm_compute. apply list_elem_of_further, list_elem_of_here.
Defined.



(** C6 as stated fails on the run with the named downloader: the
    uploader answers with job id 7 and the handler returns [None]. *)
Lemma handle_drops_the_job_id :
  (∃ d t kvs now, Upload d t kvs now (Ok 7%Z) ∈ calls_of start (finish named_handler)) ∧
  answer named_handler = Ok None_ ∧
  answer named_handler ≠ Ok (Int 7).
Proof.
  split; [|split; [vm_compute; reflexivity | vm_compute; discriminate]].
  vm_compute. eexists _, _, _, _.
  do 5 apply list_elem_of_further. apply list_elem_of_here.
Qed.

(** C6's theorem on the run with the named downloader. *)
Lemma handle_returns_None_witness :
  None_ = None_ ∧
  ∃ d t kvs now job_id, Upload d t kvs now (Ok job_id) ∈ calls_of start (finish named_handler).
Proof.
  apply (handle_returns_None named_handler event start (finish named_handler) None_).
  vm_compute. reflexivity.
Defined.

(** C8 on the upload call of the run with the named downloader. *)
Lemma upload_transaction_fields_witness :
  ∃ ti, Transaction_from_cloudevents_model event = Ok ti ∧
        submitter (mkTransaction None_ (Int 10) (Int 54) (Str "1234a")) = submitter ti ∧
        instrument (mkTransaction None_ (Int 10) (Int 54) (Str "1234a")) = instrument ti ∧
        project (mkTransaction None_ (Int 10) (Int 54) (Str "1234a")) = project ti ∧
        _id (mkTransaction None_ (Int 10) (Int 54) (Str "1234a")) = None_.
Proof.
  eapply (upload_transaction_fields named_handler event start (finish named_handler)
            (answer named_handler) "/tmp/tmp1"
            (mkTransaction None_ (Int 10) (Int 54) (Str "1234a"))).
  - vm_compute. reflexivity.
  - vm_compute. do 5 apply list_elem_of_further. apply list_elem_of_here.
Defined.

(** C9 on the upload call of the run with the named downloader. *)
Lemma upload_key_values_witness :
  ∃ ti, Transaction_from_cloudevents_model event = Ok ti ∧
        [ mkTransactionKeyValue "uppercase_text" (Str "True");
          mkTransactionKeyValue "Transactions._id" (Int 67) ] =
        [ mkTransactionKeyValue "uppercase_text" (Str "True");
          mkTransactionKeyValue "Transactions._id" (_id ti) ].
Proof.
  eapply (upload_key_values named_handler event start (finish named_handler)
            (answer named_handler) "/tmp/tmp1" _
            [ mkTransactionKeyValue "uppercase_text" (Str "True");
              mkTransactionKeyValue "Transactions._id" (Int 67) ]).
  - vm_compute. reflexivity.
  - vm_compute. do 5 apply list_elem_of_further. apply list_elem_of_here.
Defined.

(** C10, on file objects from the built-in [open]: the name of the file
    object is the path of the download, [os.path.join] returns that
    path, and the handler truncates the download, reads the empty text
    and writes it back; the uploader directory is left empty and the
    upload is given a file system whose only file is the emptied
    download. *)
Theorem builtin_open_rewrites_the_download :
  ∃ f now,
    answer builtin_handler = Ok None_ ∧
    calls_of start (finish builtin_handler) =
      [ Mkdtemp "/tmp/tmp0"; Mkdtemp "/tmp/tmp1"; Download "/tmp/tmp0" ["a.txt"] None;
        Opened f; Written f "" "/tmp/tmp0/a.txt";
        Upload "/tmp/tmp1" (mkTransaction None_ (Int 10) (Int 54) (Str "1234a"))
          [ mkTransactionKeyValue "uppercase_text" (Str "True");
            mkTransactionKeyValue "Transactions._id" (Int 67) ] now (Ok 7%Z);
        Cleanup "/tmp/tmp1"; Cleanup "/tmp/tmp0" ] ∧
    name f = "/tmp/tmp0/a.txt" ∧
    OsPath.join "/tmp/tmp1" (name f) = "/tmp/tmp0/a.txt" ∧
    OsPath.is_under "/tmp/tmp1" (OsPath.join "/tmp/tmp1" (name f)) = false ∧
    archive "a.txt" = "hello" ∧
    map_to_list (files now) = [("/tmp/tmp0/a.txt", "")].
Proof. vm_compute. eexists _, _. repeat split. Qed.

End Concrete.

(* ===================================================================== *)
(** ** The JSON object in the captured output                             *)
(* ===================================================================== *)

Lemma find_from_spec c s : ∀ i : Z,
  (Str.find_from c s i = (-1)%Z ∧ Str.count c s = 0) ∨
  ∃ pre post, s = pre +:+ String c post ∧ Str.count c pre = 0 ∧
              Str.find_from c s i = (i + Z.of_nat (String.length pre))%Z.
Proof.
  induction s as [|x s IH]; intros i; cbn [Str.find_from Str.count].
  - by left.
  - destruct (Ascii.eqb x c) eqn:Hx.
    + apply Ascii.eqb_eq in Hx as ->. right. exists "", s. cbn.
      split; [done|]. split; [done|lia].
    + destruct (IH (i + 1)%Z) as [[Hf Hc] | (pre & post & -> & Hc & Hf)].
      * left. by rewrite Hf, Hc.
      * right. exists (String x pre), post. cbn [String.app Str.count String.length].
        rewrite Hx, Hc, Hf. split; [done|]. split; [done|lia].
Qed.

Lemma append_nil_l (s : string) : "" +:+ s = s.
Proof. reflexivity. Qed.

Lemma append_cons (x : ascii) (a b : string) : String x a +:+ b = String x (a +:+ b).
Proof. reflexivity. Qed.

Lemma append_assoc_cons (a : string) (x : ascii) (b : string) :
  (a +:+ String x "") +:+ b = a +:+ String x b.
Proof.
  induction a as [|y a IH]; [done|].
  rewrite (append_cons y a), (append_cons y (a +:+ String x "")), (append_cons y a).
  by rewrite IH.
Qed.

Lemma find_from_app c pre post : ∀ i : Z,
  Str.count c pre = 0 →
  Str.find_from c (pre +:+ String c post) i = (i + Z.of_nat (String.length pre))%Z.
Proof.
  induction pre as [|x pre IH]; intros i.
  - rewrite append_nil_l. cbn [Str.find_from String.length]. rewrite Ascii.eqb_refl. lia.
  - rewrite append_cons. cbn [Str.find_from Str.count String.length].
    destruct (Ascii.eqb x c); [done|]. intros Hc. rewrite IH by done. lia.
Qed.

Lemma count_app c a b : Str.count c (a +:+ b) = Str.count c a + Str.count c b.
Proof.
  induction a as [|x a IH]; [done|].
  rewrite append_cons. cbn [Str.count]. rewrite IH. lia.
Qed.

Lemma string_length_app a b : String.length (a +:+ b) = String.length a + String.length b.
Proof.
  induction a as [|x a IH]; [done|].
  rewrite append_cons. cbn [String.length]. by rewrite IH.
Qed.

Lemma substring_skip pre s m :
  substring (String.length pre) m (pre +:+ s) = substring 0 m s.
Proof. induction pre as [|x pre IH]; [done|]. rewrite append_cons. exact IH. Qed.

Lemma substring_take a b : substring 0 (String.length a) (a +:+ b) = a.
Proof.
  induction a as [|x a IH]; [by destruct b|].
  rewrite append_cons. cbn [String.length substring]. by rewrite IH.
Qed.

Lemma substring_none s : ∀ n, substring n 0 s = "".
Proof. induction s as [|x s IH]; intros [|n]; cbn; auto. Qed.

Lemma app_split_longer (a b c d : string) :
  a +:+ b = c +:+ d → String.length a < String.length c →
  ∃ m, c = a +:+ m ∧ b = m +:+ d ∧ m ≠ "".
Proof.
  revert c. induction a as [|x a IH]; intros c Heq Hlen.
  - exists c. cbn in *. split; [done|]. split; [done|]. by destruct c; [cbn in Hlen; lia|].
  - destruct c as [|y c]; [cbn in Hlen; lia|]. cbn in Heq, Hlen. injection Heq as -> Heq.
    destruct (IH c Heq) as (m & -> & -> & Hm); [lia|]. by exists m.
Qed.

Lemma adjust_inside (n i : Z) : (0 ≤ i ≤ n)%Z → Str.adjust n i = i.
Proof. unfold Str.adjust. destruct (Z.ltb_spec i 0); lia. Qed.

Lemma adjust_before (n i : Z) : (i < 0)%Z → Str.adjust n i = Z.max (i + n) 0.
Proof. unfold Str.adjust. destruct (Z.ltb_spec i 0); lia. Qed.

(** A slice whose upper bound does not pass its lower bound is empty. *)
Lemma slice_empty s a b :
  (Str.adjust (Z.of_nat (String.length s)) b ≤ Str.adjust (Z.of_nat (String.length s)) a)%Z →
  Str.slice s a b = "".
Proof.
  intros H. unfold Str.slice. cbv zeta.
  replace (Z.to_nat (_ - _)) with 0 by lia. apply substring_none.
Qed.

Lemma app_same_length (a b c d : string) :
  a +:+ b = c +:+ d → String.length a = String.length c → a = c ∧ b = d.
Proof.
  revert c. induction a as [|x a IH]; intros [|y c]; try done.
  rewrite !append_cons. intros [= -> Heq] [= Hlen].
  destruct (IH c Heq Hlen) as [-> ->]. done.
Qed.

(** What the slice gives when both braces are found in order. *)
Lemma slice_object pre mid post :
  Str.slice (pre +:+ String "{" (mid +:+ String "}" post))
    (Z.of_nat (String.length pre))
    (Z.of_nat (String.length pre) + 1 + Z.of_nat (String.length mid) + 1)
  = String "{" (mid +:+ "}").
Proof.
  unfold Str.slice. cbv zeta.
  assert (Hn : String.length (pre +:+ String "{" (mid +:+ String "}" post))
               = String.length pre + S (String.length mid + S (String.length post))).
  { rewrite string_length_app. cbn [String.length]. rewrite string_length_app. done. }
  rewrite Hn. rewrite adjust_inside; [|lia]. rewrite adjust_inside; [|lia].
  rewrite Nat2Z.id.
  replace (Z.to_nat _) with (String.length (String "{" (mid +:+ "}"))).
  2:{ cbn [String.length]. rewrite string_length_app. cbn [String.length]. lia. }
  rewrite substring_skip.
  replace (String "{" (mid +:+ String "}" post)) with ((String "{" (mid +:+ "}")) +:+ post).
  2:{ rewrite append_cons. f_equal. apply append_assoc_cons. }
  apply substring_take.
Qed.

Lemma json_object_text_cases (stdout : string) :
  Notebook.json_object_text stdout = "" ∨
  (Notebook.json_object_text stdout = "}" ∧ Str.count "{" stdout = 0) ∨
  ∃ pre mid post,
    stdout = pre +:+ String "{" (mid +:+ String "}" post) ∧
    Str.count "{" pre = 0 ∧ Str.count "}" pre = 0 ∧ Str.count "}" mid = 0 ∧
    Notebook.json_object_text stdout = String "{" (mid +:+ "}").
Proof.
  unfold Notebook.json_object_text, Str.find.
  destruct (find_from_spec "{" stdout 0) as [[Hi Hci] | (pre & post1 & Hout1 & Hcpre & Hi)];
    destruct (find_from_spec "}" stdout 0) as [[Hj Hcj] | (pre2 & post2 & Hout2 & Hcpre2 & Hj)];
    rewrite Hi, Hj.
  - left. apply slice_empty.
    rewrite (adjust_before _ (-1)); [|lia]. rewrite (adjust_inside _ (-1 + 1)); [|lia]. lia.
  - assert (Hn : String.length stdout = String.length pre2 + S (String.length post2)).
    { rewrite Hout2, string_length_app. done. }
    destruct post2 as [|y post2].
    + right. left. split; [|done].
      unfold Str.slice. cbv zeta. rewrite Hn. cbn [String.length].
      rewrite (adjust_before _ (-1)); [|lia].
      rewrite (adjust_inside _ (0 + Z.of_nat (String.length pre2) + 1)); [|lia].
      replace (Z.to_nat (Z.max _ _)) with (String.length pre2) by lia.
      replace (Z.to_nat _) with 1 by lia.
      rewrite Hout2. by rewrite substring_skip.
    + left. apply slice_empty. rewrite Hn. cbn [String.length].
      rewrite (adjust_before _ (-1)); [|lia].
      rewrite (adjust_inside _ (0 + Z.of_nat (String.length pre2) + 1)); [|lia]. lia.
  - assert (Hn : String.length stdout = String.length pre + S (String.length post1)).
    { rewrite Hout1, string_length_app. done. }
    left. apply slice_empty. rewrite Hn. rewrite adjust_inside; [|lia]. rewrite adjust_inside; [|lia]. lia.
  - assert (Hn : String.length stdout = String.length pre + S (String.length post1)).
    { rewrite Hout1, string_length_app. done. }
    assert (Hn2 : String.length stdout = String.length pre2 + S (String.length post2)).
    { rewrite Hout2, string_length_app. done. }
    destruct (decide (String.length pre < String.length pre2)) as [Hlt | Hge].
    + right. right.
      pose proof Hout2 as Heq. rewrite Hout1 in Heq.
      destruct (app_split_longer _ _ _ _ Heq Hlt) as (m & -> & Hm & Hne).
      destruct m as [|x mid]; [done|]. rewrite append_cons in Hm. injection Hm as <- ->.
      rewrite count_app in Hcpre2. cbn [Str.count] in Hcpre2.
      exists pre, mid, post2. repeat split; try done; try lia.
      rewrite Hout1. rewrite string_length_app. cbn [String.length].
      replace (0 + Z.of_nat (String.length pre))%Z with (Z.of_nat (String.length pre)) by lia.
      replace (0 + Z.of_nat (String.length pre + S (String.length mid)) + 1)%Z
        with (Z.of_nat (String.length pre) + 1 + Z.of_nat (String.length mid) + 1)%Z by lia.
      apply slice_object.
    + assert (String.length pre ≠ String.length pre2).
      { intros Hlen. rewrite Hout1 in Hout2.
        destruct (app_same_length _ _ _ _ Hout2 Hlen) as [_ [=]]. }
      left. apply slice_empty.
      rewrite (adjust_inside _ (0 + Z.of_nat (String.length pre))); [|lia].
      rewrite (adjust_inside _ (0 + Z.of_nat (String.length pre2) + 1)); [|lia]. lia.
Qed.

(** X1: when the captured output holds an opening brace, then text free
    of closing braces, then a closing brace, and no brace comes before
    the opening one, the text handed to [json.loads] is exactly the
    stretch from that opening brace to that closing brace. *)
Theorem json_object_text_extracts_first_object (pre mid post : string) :
  Str.count "{" pre = 0 → Str.count "}" pre = 0 → Str.count "}" mid = 0 →
  Notebook.json_object_text (pre +:+ String "{" (mid +:+ String "}" post))
  = String "{" (mid +:+ "}").
Proof.
  intros Hopen Hclose Hmid. unfold Notebook.json_object_text, Str.find.
  rewrite find_from_app by done.
  replace (Str.find_from "}" _ 0)
    with (0 + Z.of_nat (String.length (pre +:+ String "{" mid)))%Z.
  2:{ symmetry. rewrite <- (find_from_app "}" (pre +:+ String "{" mid) post 0).
      - f_equal. clear. induction pre as [|x pre IH]; [done|].
        rewrite !append_cons. by rewrite IH.
      - rewrite count_app. cbn [Str.count]. rewrite Hclose, Hmid. done. }
  rewrite string_length_app. cbn [String.length].
  replace (0 + Z.of_nat (String.length pre))%Z with (Z.of_nat (String.length pre)) by lia.
  replace (0 + Z.of_nat (String.length pre + S (String.length mid)) + 1)%Z
    with (Z.of_nat (String.length pre) + 1 + Z.of_nat (String.length mid) + 1)%Z by lia.
  apply slice_object.
Qed.

Lemma json_object_text_extracts_first_object_witness :
  Notebook.json_object_text Cases.stdout = "{job_id: 105, state: OK}".
Proof.
  apply (json_object_text_extracts_first_object "uploading 1 file " "job_id: 105, state: OK" " done");
    reflexivity.
Defined.

(** X2: the text handed to [json.loads] never holds more than one
    closing brace, so an object that holds another object is cut off at
    the inner closing brace. *)
Theorem json_object_text_one_closing_brace (stdout : string) :
  (Str.count "}" (Notebook.json_object_text stdout) ≤ 1)%nat.
Proof.
  destruct (json_object_text_cases stdout)
    as [-> | [[-> _] | (pre & mid & post & _ & _ & _ & Hmid & ->)]]; cbn; [lia..|].
  rewrite count_app, Hmid. cbn. lia.
Qed.

(** X3: when the captured output holds no closing brace, or its first
    closing brace comes before its first opening brace, the text handed
    to [json.loads] is empty. *)
Theorem json_object_text_empty (stdout : string) :
  Str.count "}" stdout = 0 ∨ (Str.find "}" stdout < Str.find "{" stdout)%Z →
  Notebook.json_object_text stdout = "".
Proof.
  intros H. unfold Notebook.json_object_text. apply slice_empty.
  unfold Str.find in *.
  destruct (find_from_spec "{" stdout 0) as [[Hi Hci] | (pre & post1 & Hout1 & Hcpre & Hi)];
    destruct (find_from_spec "}" stdout 0) as [[Hj Hcj] | (pre2 & post2 & Hout2 & Hcpre2 & Hj)];
    rewrite Hi, Hj in *.
  - rewrite (adjust_before _ (-1)); [|lia]. rewrite (adjust_inside _ (-1 + 1)); [|lia]. lia.
  - destruct H as [H | H]; [|lia].
    rewrite Hout2, count_app in H. cbn [Str.count] in H. rewrite Ascii.eqb_refl in H. lia.
  - assert (Hn : String.length stdout = String.length pre + S (String.length post1)).
    { rewrite Hout1, string_length_app. done. }
    rewrite Hn. rewrite adjust_inside; [|lia]. rewrite adjust_inside; [|lia]. lia.
  - assert (Hn : String.length stdout = String.length pre + S (String.length post1)).
    { rewrite Hout1, string_length_app. done. }
    assert (Hn2 : String.length stdout = String.length pre2 + S (String.length post2)).
    { rewrite Hout2, string_length_app. done. }
    destruct H as [H | H].
    { rewrite Hout2, count_app in H. cbn [Str.count] in H. rewrite Ascii.eqb_refl in H. lia. }
    rewrite (adjust_inside _ (0 + Z.of_nat (String.length pre))); [|lia].
    rewrite (adjust_inside _ (0 + Z.of_nat (String.length pre2) + 1)); [|lia]. lia.
Qed.

Lemma json_object_text_empty_witness :
  Notebook.json_object_text "} then {job_id: 105" = "".
Proof. apply json_object_text_empty. right. vm_compute. reflexivity. Defined.

Example nested_object_is_cut :
  Notebook.json_object_text Cases.nested_stdout = "{job: {id: 105}".
Proof. reflexivity. Qed.

(* ===================================================================== *)
(** ** The uploader configuration                                         *)
(* ===================================================================== *)

Section ConfigFacts.
Import Notebook.
Context (loads : string → outcome json) (dumps : json → string).

Lemma open_read_Return p (fs : FS) text :
  open_read p fs = Return text ↔ (p ∉ dirs fs) ∧ files fs !! p = Some text.
Proof.
  unfold open_read. case_bool_decide as Hd.
  - split; [done|]. by intros [? _].
  - destruct (files fs !! p) as [x|]; split; try done.
    + by intros [= ->].
    + by intros [_ [= ->]].
    + by intros [_ ?].
Qed.

Lemma open_w_notify (fs : FS) :
  "pacifica-cli" ∈ dirs fs → (uploader_notify_json ∉ dirs fs) →
  Fs.open_w uploader_notify_json fs
  = (Py.Ok tt, mkFS (dirs fs) (<[uploader_notify_json := ""]> (files fs))).
Proof.
  intros Hdir Hfree. unfold Fs.open_w.
  rewrite (bool_decide_eq_false_2 _ Hfree).
  change (OsPath.dirname uploader_notify_json) with "pacifica-cli".
  by rewrite (bool_decide_eq_true_2 _ Hdir).
Qed.

Lemma open_w_failure p (fs fs' : FS) e : Fs.open_w p fs = (Py.Raise e, fs') → fs' = fs.
Proof. unfold Fs.open_w. repeat case_match; by intros [= _ <-]. Qed.

Lemma open_w_success p (fs fs' : FS) :
  Fs.open_w p fs = (Py.Ok tt, fs') →
  fs' = mkFS (dirs fs) (<[p := ""]> (files fs)) ∧ (p ∉ dirs fs) ∧ OsPath.dirname p ∈ dirs fs.
Proof.
  unfold Fs.open_w.
  destruct (bool_decide (p ∈ dirs fs)) eqn:Hp; [done|].
  destruct (bool_decide (OsPath.dirname p ∈ dirs fs)) eqn:Hd; [|done]. cbn [negb].
  destruct (Fs.names_a_directory (OsPath.basename p)); [done|].
  intros [= <-]. apply bool_decide_eq_false in Hp. apply bool_decide_eq_true in Hd. done.
Qed.

(** X4: when [uploader.json] holds a JSON list and sits in a directory
    in which [uploader-notify.json] can be written, the cell returns
    normally; with a serialiser that the parser inverts on the new
    list, reading [uploader-notify.json] back gives the original
    entries in their order followed by the trigger record; the file
    [uploader.json], every other file and the directories are as
    before. *)
Theorem write_uploader_notify_appends_trigger
    (fs : FS) (text : string) (items : list json) :
  open_read uploader_json fs = Return text →
  loads text = Return (JArray items) →
  "pacifica-cli" ∈ dirs fs →
  uploader_notify_json ∉ dirs fs →
  loads (dumps (JArray (items ++ [trigger]))) = Return (JArray (items ++ [trigger])) →
  let fs' := (write_uploader_notify loads dumps fs).2 in
  (write_uploader_notify loads dumps fs).1 = Return tt ∧
  bind (open_read uploader_notify_json fs') loads = Return (JArray (items ++ [trigger])) ∧
  open_read uploader_json fs' = Return text ∧
  (∀ p, p ≠ uploader_notify_json → files fs' !! p = files fs !! p) ∧
  dirs fs' = dirs fs.
Proof.
  intros Hread Hloads Hdir Hfree Hround. unfold write_uploader_notify.
  rewrite Hread, Hloads. cbn [append]. rewrite open_w_notify by done.
  cbn [fst snd]. unfold Fs.write_text. cbn [dirs files].
  repeat split.
  - unfold open_read, Fs.read_text. cbn [dirs files].
    rewrite (bool_decide_eq_false_2 _ Hfree), lookup_insert_eq. cbn [bind]. exact Hround.
  - apply open_read_Return in Hread as [Hnd Hf]. apply open_read_Return. cbn [dirs files].
    split; [done|]. by rewrite !lookup_insert_ne.
  - intros p Hp. by rewrite !lookup_insert_ne.
Qed.

(** X5: running the cell a second time changes nothing: it reads
    [uploader.json] again, not the file it wrote, so the triggers do
    not pile up. *)
Theorem write_uploader_notify_idempotent (fs : FS) :
  write_uploader_notify loads dumps (write_uploader_notify loads dumps fs).2
  = write_uploader_notify loads dumps fs.
Proof.
  unfold write_uploader_notify at 2 3.
  destruct (open_read uploader_json fs) as [text|e] eqn:Hread; cbn [snd].
  2:{ unfold write_uploader_notify. by rewrite Hread. }
  destruct (loads text) as [data|e] eqn:Hloads; cbn [snd].
  2:{ unfold write_uploader_notify. by rewrite Hread, Hloads. }
  destruct (append data trigger) as [data'|e] eqn:Happ; cbn [snd].
  2:{ unfold write_uploader_notify. by rewrite Hread, Hloads, Happ. }
  destruct (Fs.open_w uploader_notify_json fs) as [[[]|e] fs1] eqn:Hopen; cbn [snd].
  2:{ apply open_w_failure in Hopen as Hfs. subst fs1.
      unfold write_uploader_notify. by rewrite Hread, Hloads, Happ, Hopen. }
  apply open_w_success in Hopen as (-> & Hfree & Hdir).
  unfold write_uploader_notify. unfold Fs.write_text. cbn [dirs files].
  replace (open_read uploader_json _) with (Return (A := string) text).
  2:{ symmetry. apply open_read_Return in Hread as [Hnd Hf]. apply open_read_Return.
      cbn [dirs files]. split; [done|]. by rewrite !lookup_insert_ne. }
  rewrite Hloads, Happ.
  unfold Fs.open_w. cbn [dirs files].
  rewrite (bool_decide_eq_false_2 _ Hfree), (bool_decide_eq_true_2 _ Hdir).
  cbn [negb]. change (Fs.names_a_directory _) with false. cbv iota.
  cbn [dirs files]. by rewrite !insert_insert_eq.
Qed.

(** X6: a cell that raises has written nothing: the file system is as
    it was.  It raises [AttributeError] when the JSON in
    [uploader.json] is not a list. *)
Theorem write_uploader_notify_failure (fs : FS) :
  (∀ e, (write_uploader_notify loads dumps fs).1 = Throw e →
        (write_uploader_notify loads dumps fs).2 = fs) ∧
  (∀ text data,
     open_read uploader_json fs = Return text →
     loads text = Return data →
     (∀ items, data ≠ JArray items) →
     write_uploader_notify loads dumps fs = (Throw AttributeError, fs)).
Proof.
  split.
  - intros e. unfold write_uploader_notify.
    destruct (open_read uploader_json fs) as [text|?]; [|done].
    destruct (loads text) as [data|?]; [|done].
    destruct (append data trigger) as [data'|?]; [|done].
    destruct (Fs.open_w uploader_notify_json fs) as [[[]|?] fs1] eqn:Hopen; [done|].
    intros _. by apply open_w_failure in Hopen.
  - intros text data Hread Hloads Hlist. unfold write_uploader_notify.
    rewrite Hread, Hloads. destruct data; try done. by destruct (Hlist items).
Qed.

End ConfigFacts.

Lemma write_uploader_notify_appends_trigger_witness :
  let fs' := (Notebook.write_uploader_notify Cases.loads Cases.dumps Cases.cwd).2 in
  (Notebook.write_uploader_notify Cases.loads Cases.dumps Cases.cwd).1 = Notebook.Return tt ∧
  Notebook.bind (Notebook.open_read Notebook.uploader_notify_json fs') Cases.loads
    = Notebook.Return (JArray ([Cases.theme] ++ [Notebook.trigger])) ∧
  Notebook.open_read Notebook.uploader_json fs' = Notebook.Return Cases.uploader_text ∧
  (∀ p, p ≠ Notebook.uploader_notify_json → files fs' !! p = files Cases.cwd !! p) ∧
  dirs fs' = dirs Cases.cwd.
Proof.
  apply (write_uploader_notify_appends_trigger Cases.loads Cases.dumps Cases.cwd
           Cases.uploader_text [Cases.theme]).
  - vm_compute. reflexivity.
  - reflexivity.
  - vm_compute. set_solver.
  - vm_compute. set_solver.
  - reflexivity.
Defined.

Lemma write_uploader_notify_failure_witness :
  Notebook.write_uploader_notify Cases.loads Cases.dumps Cases.cwd_with_object
  = (Notebook.Throw Notebook.AttributeError, Cases.cwd_with_object).
Proof.
  apply (proj2 (write_uploader_notify_failure Cases.loads Cases.dumps Cases.cwd_with_object)
           "{}" (JObject [])).
  - vm_compute. reflexivity.
  - reflexivity.
  - discriminate.
Defined.

(** X7: the record that the configuration cell appends is one that the
    predicate of the route selects: a payload whose data array ends
    with it, whatever comes before, is handed to the handler. *)
Theorem trigger_record_is_routed {Handler : Type} (h : Handler)
    (items : list json) (envelope : list (string * json)) :
  Router.match_ (ROUTER h)
    (JObject (("data", JArray (items ++ [Notebook.trigger])) :: envelope)) = [h].
Proof.
  unfold Router.match_, ROUTER, Router.add_route, Router.new.
  cbn [Router.routes app]. rewrite filter_cons, filter_nil. cbn [fst].
  rewrite uppercase_false_path_matches.
  change (Json.has_tkv "uppercase_text" "False" _)
    with (existsb (Json.is_tkv "uppercase_text" "False") (items ++ [Notebook.trigger])).
  rewrite existsb_app. cbn [existsb].
  change (Json.is_tkv "uppercase_text" "False" Notebook.trigger) with true.
  rewrite orb_true_r. by case_decide.
Qed.

(* ===================================================================== *)
(** ** The dispatcher checks                                              *)
(* ===================================================================== *)

Section CheckFacts.
Import Notebook.
Context (str : json → string).

Lemma append_grows (a b : string) : a +:+ b = a → b = "".
Proof. induction a as [|x a IH]; [done|]. intros [= H]. by apply IH. Qed.

Lemma task_url_differs (s : string) : dispatcher_url +:+ "/get/" +:+ s ≠ dispatcher_url.
Proof. intros H. by apply append_grows in H. Qed.

(** X8: the checks pass only if the dispatcher answers 200 with a list
    of at least two tasks, the second task of the list has a task id,
    and the request for that task answers 200 with the status
    ["200 OK"]. *)
Theorem dispatcher_checks_pass (get : string → outcome response) :
  dispatcher_checks get str = Return tt →
  ∃ first t0 t1 rest task_id second body,
    get dispatcher_url = Return first ∧
    status_code first = 200%Z ∧
    json_body first = Return (JArray (t0 :: t1 :: rest)) ∧
    getitem_key "taskID" t1 = Return task_id ∧
    get (dispatcher_url +:+ "/get/" +:+ str task_id) = Return second ∧
    status_code second = 200%Z ∧
    json_body second = Return body ∧
    getitem_key "taskStatus" body = Return (JString "200 OK").
Proof.
  unfold dispatcher_checks.
  destruct (get dispatcher_url) as [first|] eqn:Hfirst; [|done]. cbn [bind].
  destruct (Z.eqb_spec (status_code first) 200) as [Hcode|]; [|done]. cbn [assert_ bind].
  destruct (json_body first) as [listing|] eqn:Hbody; [|done]. cbn [bind].
  destruct (truthy listing); [|done]. cbn [assert_ bind].
  destruct (getitem_index 1 listing) as [t1|] eqn:Ht1; [|done]. cbn [bind].
  destruct (getitem_key "taskID" t1) as [task_id|] eqn:Hid; [|done]. cbn [bind].
  destruct (get (dispatcher_url +:+ "/get/" +:+ str task_id)) as [second|] eqn:Hsecond;
    [|done]. cbn [bind].
  destruct (Z.eqb_spec (status_code second) 200) as [Hcode2|]; [|done]. cbn [assert_ bind].
  destruct (json_body second) as [body|] eqn:Hbody2; [|done]. cbn [bind].
  destruct (getitem_key "taskStatus" body) as [status|] eqn:Hstatus; [|done]. cbn [bind].
  destruct status as [| | |s| |]; try done. cbn [Json.is_string].
  destruct (String.eqb_spec "200 OK" s) as [<-|]; [|done]. intros _.
  destruct listing as [| | |s|items|]; try done.
  - cbn [getitem_index] in Ht1. destruct (String.get 1 s); [|done].
    injection Ht1 as <-. done.
  - cbn [getitem_index] in Ht1. destruct items as [|t0 [|t1' rest]]; try done.
    cbn in Ht1. injection Ht1 as ->.
    by exists first, t0, t1, rest, task_id, second, body.
Qed.

(** X9: the checks look at the second task of the list only: the outcome
    is the same whatever the first task and the tasks after the second
    are.  The first task, the most recent one, is never looked up. *)
Theorem dispatcher_checks_ignore_other_tasks
    (get get' : string → outcome response) (code : Z)
    (t0 t0' t1 : json) (rest rest' : list json) :
  get dispatcher_url = Return (mkResponse code (Return (JArray (t0 :: t1 :: rest)))) →
  get' dispatcher_url = Return (mkResponse code (Return (JArray (t0' :: t1 :: rest')))) →
  (∀ url, url ≠ dispatcher_url → get' url = get url) →
  dispatcher_checks get' str = dispatcher_checks get str.
Proof.
  intros Hget Hget' Hother. unfold dispatcher_checks.
  rewrite Hget, Hget'. cbn [bind status_code json_body].
  destruct (assert_ (code =? 200)%Z); [|done]. cbn [bind truthy assert_ getitem_index nth_error].
  destruct (getitem_key "taskID" t1) as [task_id|]; [|done]. cbn [bind].
  by rewrite (Hother _ (task_url_differs _)).
Qed.

End CheckFacts.

Lemma dispatcher_checks_pass_witness :
  ∃ first t0 t1 rest task_id second body,
    Cases.get [Cases.task "second"; Cases.task "first"] Notebook.dispatcher_url
      = Notebook.Return first ∧
    Notebook.status_code first = 200%Z ∧
    Notebook.json_body first = Notebook.Return (JArray (t0 :: t1 :: rest)) ∧
    Notebook.getitem_key "taskID" t1 = Notebook.Return task_id ∧
    Cases.get [Cases.task "second"; Cases.task "first"]
      (Notebook.dispatcher_url +:+ "/get/" +:+ Cases.str task_id) = Notebook.Return second ∧
    Notebook.status_code second = 200%Z ∧
    Notebook.json_body second = Notebook.Return body ∧
    Notebook.getitem_key "taskStatus" body = Notebook.Return (JString "200 OK").
Proof.
  apply (dispatcher_checks_pass Cases.str
           (Cases.get [Cases.task "second"; Cases.task "first"])).
  reflexivity.
Defined.

Lemma dispatcher_checks_ignore_other_tasks_witness :
  Notebook.dispatcher_checks
    (Cases.get [Cases.task "none"; Cases.task "first"; Cases.task "second"]) Cases.str
  = Notebook.dispatcher_checks
      (Cases.get [Cases.task "second"; Cases.task "first"]) Cases.str.
Proof.
  apply (dispatcher_checks_ignore_other_tasks Cases.str _ _ 200
           (Cases.task "second") (Cases.task "none") (Cases.task "first")
           [] [Cases.task "second"]).
  - reflexivity.
  - reflexivity.
  - intros url Hurl. unfold Cases.get.
    destruct (String.eqb_spec url Notebook.dispatcher_url); [done|reflexivity].
Defined.

Example second_task_failed :
  Notebook.dispatcher_checks
    (Cases.get [Cases.task "first"; Cases.task "second"]) Cases.str
  = Notebook.Throw Notebook.AssertionError
  ∧ Notebook.dispatcher_checks (Cases.get [Cases.task "first"]) Cases.str
    = Notebook.Throw Notebook.IndexError
  ∧ Notebook.dispatcher_checks (Cases.get []) Cases.str
    = Notebook.Throw Notebook.AssertionError.
Proof. repeat split; reflexivity. Qed.

(* ===================================================================== *)
(** ** The steps of the handler, and the file system around it            *)
(* ===================================================================== *)

Lemma first_free_unused fs0 fuel : ∀ n d,
  Fs.first_free fs0 n fuel = Some d → ∃ k, d = Fs.candidate k ∧ Fs.exists_ fs0 d = false.
Proof.
  induction fuel as [|fuel IH]; intros n d; cbn [Fs.first_free]; [done|].
  destruct (Fs.exists_ fs0 (Fs.candidate n)) eqn:Hex; [by apply IH|].
  intros [= <-]. by exists n.
Qed.

Lemma exists_mkdir_self d fs0 : Fs.exists_ (Fs.mkdir d fs0) d = true.
Proof.
  unfold Fs.exists_, Fs.mkdir. cbn [dirs files].
  rewrite bool_decide_eq_true_2; [done|]. set_solver.
Qed.

Lemma exists_mkdir_other d fs0 p :
  Fs.exists_ (Fs.mkdir d fs0) p = false → Fs.exists_ fs0 p = false.
Proof.
  unfold Fs.exists_, Fs.mkdir. cbn [dirs files].
  rewrite !orb_false_iff, !bool_decide_eq_false. intros [Hd Hf]. split; [|done].
  intros Hp. apply Hd. apply elem_of_union. by right.
Qed.

Lemma exists_false fs0 p :
  Fs.exists_ fs0 p = false ↔ (p ∉ dirs fs0) ∧ files fs0 !! p = None.
Proof.
  unfold Fs.exists_. rewrite orb_false_iff, !bool_decide_eq_false.
  by rewrite <- eq_None_not_Some.
Qed.

Lemma fs_ext (fs1 fs2 : FS) : (∀ p, same_at p fs1 fs2) → fs1 = fs2.
Proof.
  destruct fs1 as [d1 f1], fs2 as [d2 f2]. unfold same_at. cbn [dirs files]. intros H.
  f_equal.
  - apply set_eq. intros p. apply H.
  - apply map_eq. intros p. apply H.
Qed.

Lemma remove_tree_files d fs0 p :
  files (Fs.remove_tree d fs0) !! p
  = if OsPath.is_under d p then None else files fs0 !! p.
Proof.
  unfold Fs.remove_tree. cbn [files]. rewrite map_lookup_filter.
  destruct (files fs0 !! p) as [x|]; cbn; [|by destruct (OsPath.is_under d p)].
  destruct (OsPath.is_under d p); by case_guard.
Qed.

Lemma rmtree_present d fs0 : d ∈ dirs fs0 → (Fs.rmtree d fs0).2 = Fs.remove_tree d fs0.
Proof. intros Hd. unfold Fs.rmtree. by rewrite (bool_decide_eq_true_2 _ Hd). Qed.

Lemma prefix_append (a b : string) : String.prefix a (a +:+ b) = true.
Proof.
  induction a as [|x a IH]; [by destruct b|]. rewrite append_cons. cbn [String.prefix].
  by destruct (ascii_dec x x).
Qed.

Lemma prefix_strip (a b c : string) : String.prefix (a +:+ b) (a +:+ c) = String.prefix b c.
Proof.
  induction a as [|x a IH]; [done|]. rewrite !append_cons. cbn [String.prefix].
  by destruct (ascii_dec x x).
Qed.

Lemma append_assoc (a b c : string) : (a +:+ b) +:+ c = a +:+ (b +:+ c).
Proof. induction a as [|x a IH]; [done|]. rewrite !append_cons. by rewrite IH. Qed.

Lemma is_under_child d n : OsPath.is_under d (d +:+ "/" +:+ n) = true.
Proof.
  unfold OsPath.is_under. rewrite <- (append_assoc d "/" n), prefix_append.
  apply orb_true_r.
Qed.

Lemma prefix_sep (x y : string) :
  String.prefix (x +:+ "/") y = true → OsPath.has_sep y = true.
Proof.
  revert y. induction x as [|c x IH]; intros [|c' y]; try done.
  - change ("" +:+ "/") with "/". cbn [String.prefix OsPath.has_sep].
    destruct (ascii_dec "/" c') as [<-|]; done.
  - rewrite append_cons. cbn [String.prefix OsPath.has_sep].
    destruct (ascii_dec c c'); [|done]. intros H. rewrite (IH _ H). apply orb_true_r.
Qed.

Lemma candidates_apart k1 k2 :
  Fs.candidate k1 ≠ Fs.candidate k2 →
  OsPath.is_under (Fs.candidate k1) (Fs.candidate k2) = false.
Proof.
  intros Hne. unfold OsPath.is_under. apply orb_false_iff. split.
  - by apply String.eqb_neq.
  - unfold Fs.candidate. rewrite append_assoc, prefix_strip.
    destruct (String.prefix _ _) eqn:Hp; [|done].
    apply prefix_sep in Hp. destruct (pretty_nat_component k2) as [_ Hc]. congruence.
Qed.

Section HandlerSteps.
Import Py.
Context {Event File Bundle State Remote : Type}.
Context {models : @CloudEventsModels Event File}.
Context {unicode : Unicode}.

Abbreviation world := (@world File Remote).
Abbreviation call := (@call File).
Abbreviation handler := (@SimpleEventHandler File Bundle State Remote).

Lemma with_TemporaryDirectory_steps {A} (body : string → M A) (w w' : world) r :
  with_TemporaryDirectory body w = (r, w') →
  (r = Raise FileExistsError ∧ fs w' = fs w ∧ trace w' = trace w) ∨
  ∃ k rb w2,
    Fs.exists_ (fs w) (Fs.candidate k) = false ∧
    body (Fs.candidate k)
      (mkWorld (Fs.mkdir (Fs.candidate k) (fs w)) (remote w)
               (trace w ++ [Mkdtemp (Fs.candidate k)])) = (rb, w2) ∧
    fs w' = (Fs.rmtree (Fs.candidate k) (fs w2)).2 ∧
    trace w' = trace w2 ++ [Cleanup (Fs.candidate k)] ∧
    exits rb r.
Proof.
  unfold with_TemporaryDirectory, TemporaryDirectory, Fs.mkdtemp.
  destruct (Fs.first_free (fs w) 0 Fs.TMP_MAX) as [d|] eqn:Hfree.
  2:{ intros [= <- <-]. by left. }
  apply first_free_unused in Hfree as (k & -> & Hnew).
  unfold log; cbn [fs remote trace].
  destruct (body _ _) as [rb w2] eqn:Hbody. intros H. right.
  exists k, rb, w2. split; [done|]. split; [done|].
  unfold cleanup, log in H. cbn [fs remote trace] in H.
  pose proof (rmtree_outcome (Fs.candidate k) (fs w2)) as Hout.
  destruct (Fs.rmtree (Fs.candidate k) (fs w2)) as [[[]|e] fs3]; cbn [fst snd] in *;
    injection H as <- <-; cbn [fs trace]; repeat split; try done.
  - by left.
  - right. exists e. split; [done|]. exists (Fs.candidate k). by apply Hout.
Qed.

(** The three ways a run of [handle] goes: it stops before the first
    directory is made; the second directory cannot be made; or the block
    runs inside both directories. *)
Lemma handle_steps (self : handler) (event : Event) (w w' : world) r :
  handle self event w = (r, w') →
  (fs w' = fs w ∧ trace w' = trace w) ∨
  (∃ k1,
     Fs.exists_ (fs w) (Fs.candidate k1) = false ∧
     trace w' = trace w ++ [Mkdtemp (Fs.candidate k1); Cleanup (Fs.candidate k1)] ∧
     fs w' = (Fs.rmtree (Fs.candidate k1) (Fs.mkdir (Fs.candidate k1) (fs w))).2) ∨
  (∃ k1 k2 ti fl rb w2,
     Fs.exists_ (fs w) (Fs.candidate k1) = false ∧
     Fs.exists_ (Fs.mkdir (Fs.candidate k1) (fs w)) (Fs.candidate k2) = false ∧
     Transaction_from_cloudevents_model event = Ok ti ∧
     File_from_cloudevents_model event = Ok fl ∧
     round_trip self ti fl (Fs.candidate k1) (Fs.candidate k2)
       (mkWorld (Fs.mkdir (Fs.candidate k2) (Fs.mkdir (Fs.candidate k1) (fs w))) (remote w)
                (trace w ++ [Mkdtemp (Fs.candidate k1); Mkdtemp (Fs.candidate k2)]))
       = (rb, w2) ∧
     fs w' = (Fs.rmtree (Fs.candidate k1) (Fs.rmtree (Fs.candidate k2) (fs w2)).2).2 ∧
     trace w' = trace w2 ++ [Cleanup (Fs.candidate k2); Cleanup (Fs.candidate k1)] ∧
     exits rb r).
Proof.
  rewrite handle_unfold. unfold bind at 1, lift at 1.
  destruct (Transaction_from_cloudevents_model event) as [ti|e] eqn:Hti.
  2:{ intros [= <- <-]. by left. }
  unfold bind at 1, lift at 1.
  destruct (TransactionKeyValue_from_cloudevents_model event) as [kvs|e] eqn:Hkv.
  2:{ intros [= <- <-]. by left. }
  unfold bind at 1, lift at 1.
  destruct (File_from_cloudevents_model event) as [fl|e] eqn:Hfl.
  2:{ intros [= <- <-]. by left. }
  intros H. apply with_TemporaryDirectory_steps in H
    as [(_ & Hfs & Ht) | (k1 & rb1 & w2 & Hnew1 & Hbody & Hfs1 & Ht1 & Hex1)].
  { by left. }
  right.
  apply with_TemporaryDirectory_steps in Hbody
    as [(_ & Hfs & Ht) | (k2 & rb2 & w3 & Hnew2 & Hbody & Hfs2 & Ht2 & Hex2)];
    cbn [fs remote trace] in *.
  { left. exists k1. split; [done|]. rewrite Ht1, Ht, Hfs1, Hfs, <- app_assoc. done. }
  right. exists k1, k2, ti, fl, rb2, w3. rewrite <- app_assoc in Hbody.
  repeat split; try done.
  - by rewrite Hfs1, Hfs2.
  - by rewrite Ht1, Ht2, <- app_assoc.
  - by eapply exits_trans.
Qed.

(** The loop writes at the joined names only. *)
Lemma transform_writes d op (w w' : world) r :
  transform d op w = (r, w') →
  ∃ new, trace w' = trace w ++ new ∧ Forall (write_call d) new.
Proof.
  unfold transform, bind, call_opener, open_w, call_read, write_close, log.
  destruct (op (fs w)) as [f|e] eqn:Hop.
  2:{ intros [= <- <-]. exists []. by rewrite app_nil_r. }
  cbn [fs remote trace].
  destruct (Fs.open_w _ (fs w)) as [[[]|e] fs1] eqn:Hopen.
  2:{ intros [= <- <-]. exists [Opened f]. split; [done|]. by repeat constructor. }
  cbn [fs remote trace].
  destruct (read f fs1) as [text|e] eqn:Hread.
  - intros [= <- <-]. exists [Opened f; Written f text (OsPath.join d (name f))].
    cbn [trace]. rewrite <- app_assoc. split; [done|]. by repeat constructor.
  - intros [= <- <-]. exists [Opened f]. split; [done|]. by repeat constructor.
Qed.

Lemma for_each_writes d ops : ∀ (w w' : world) r,
  for_each (transform d) ops w = (r, w') →
  ∃ new, trace w' = trace w ++ new ∧ Forall (write_call d) new.
Proof.
  induction ops as [|op ops IH]; intros w w' r; cbn [for_each].
  - intros [= <- <-]. exists []. by rewrite app_nil_r.
  - unfold bind at 1. destruct (transform d op w) as [[[]|e] w1] eqn:Hstep.
    + apply transform_writes in Hstep as (new1 & Ht1 & Hl1).
      intros Hrest. apply IH in Hrest as (new2 & Ht2 & Hl2).
      exists (new1 ++ new2). rewrite Ht2, Ht1, <- app_assoc. split; [done|].
      by apply Forall_app.
    + intros [= <- <-]. by apply transform_writes in Hstep.
Qed.

Lemma round_trip_writes (self : handler) ti fl d1 d2 (w w' : world) r f text p :
  round_trip self ti fl d1 d2 w = (r, w') →
  Written f text p ∈ calls_of w w' →
  p = OsPath.join d2 (name f).
Proof.
  unfold round_trip. unfold bind at 1. unfold call_download, log.
  destruct (download d1 fl (fs w) (remote w)) as [[[ops|e] fs1] rem1] eqn:Hdl;
    cbn [outcome fs remote trace].
  2:{ intros [= <- <-]. rewrite (calls_of_app _ _ [Download d1 fl (Some e)]) by done.
      rewrite elem_of_cons, elem_of_nil. by intros [[=] | []]. }
  unfold bind at 1.
  destruct (for_each (transform d2) ops _) as [[[]|e] w2] eqn:Hloop.
  2:{ intros [= <- <-]. apply for_each_writes in Hloop as (new & Ht & Hl).
      cbn [trace] in Ht.
      rewrite (calls_of_app _ _ (Download d1 fl None :: new)).
      2:{ rewrite Ht, <- app_assoc. done. }
      rewrite elem_of_cons. intros [[=] | Hin].
      rewrite Forall_forall in Hl. by apply Hl in Hin. }
  apply for_each_writes in Hloop as (new & Ht & Hl). cbn [trace] in Ht.
  unfold bind, call_upload, log.
  destruct (upload d2 _ _ (fs w2) (remote w2)) as [[[[[b j] st]|e] fs3] rem3] eqn:Hul;
    cbn [job_id_of fs remote trace]; unfold ret; intros [= <- <-].
  all: erewrite calls_of_app;
    [| cbn [trace]; rewrite Ht, <- !app_assoc; reflexivity].
  all: cbn [app].
  all: rewrite elem_of_cons, elem_of_app, elem_of_cons, elem_of_nil.
  all: intros [[=] | [Hin | [[=] | []]]].
  all: rewrite Forall_forall in Hl; by apply Hl in Hin.
Qed.

End HandlerSteps.

(* ===================================================================== *)
(** ** The one upload of a run that returns                               *)
(* ===================================================================== *)

Section UploadOnce.
Import Py.
Context {Event File Bundle State Remote : Type}.
Context {models : @CloudEventsModels Event File}.
Context {unicode : Unicode}.

Abbreviation world := (@world File Remote).
Abbreviation call := (@call File).
Abbreviation handler := (@SimpleEventHandler File Bundle State Remote).

(** A loop that ends normally has called every opener, in order, and
    read the file object that it returned; the trace holds the two calls
    of every file object, and a path holds the upper-case form of the
    text of the last file object that was written to it. *)
Lemma for_each_rewrites d (ops : list opener) : ∀ (w w' : world),
  for_each (transform d) ops w = (Ok tt, w') →
  ∃ fws : list (TextIO * string),
    Forall2 (λ (op : opener) fw,
               ∃ fs0 fs1, op fs0 = Ok fw.1 ∧ read fw.1 fs1 = Ok fw.2) ops fws ∧
    trace w' = trace w ++ flat_map (rewritten d) fws ∧
    (∀ q, q ∉ map (target d) fws → files (fs w') !! q = files (fs w) !! q) ∧
    ∀ pre fw post,
      fws = pre ++ fw :: post →
      target d fw ∉ map (target d) post →
      files (fs w') !! target d fw = Some (upper fw.2).
Proof.
  induction ops as [|op ops IH]; intros w w'; cbn [for_each].
  - intros [= <-]. exists []. rewrite app_nil_r. repeat split; try done.
    intros [|??] ?? [=].
  - unfold bind at 1. destruct (transform d op w) as [[[]|e] w1] eqn:Hstep; [|done].
    apply transform_ok in Hstep as (f & text & fs1 & Hop & Hopen & Hread & ->).
    intros Hrest. apply IH in Hrest as (fws & Hall & Htr & Hfr & Hlast).
    cbn [fs trace] in *.
    assert (Hfs1 : files fs1 = <[OsPath.join d (name f) := ""]> (files (fs w))).
    { revert Hopen. unfold Fs.open_w. repeat case_match; intros [= <-]; done. }
    exists ((f, text) :: fws). repeat split.
    + constructor; [|done]. by exists (fs w), fs1.
    + rewrite Htr, <- app_assoc. done.
    + intros q Hq. cbn [map] in Hq. apply not_elem_of_cons in Hq as [Hne Hq].
      rewrite (Hfr q Hq). unfold Fs.write_text; cbn [files].
      unfold target in Hne; cbn [fst] in Hne.
      rewrite lookup_insert_ne by done. rewrite Hfs1. by rewrite lookup_insert_ne.
    + intros [|x pre] fw post.
      * intros [= <- <-] Hnot. rewrite (Hfr _ Hnot).
        unfold Fs.write_text, target; cbn [files fst snd]. by rewrite lookup_insert_eq.
      * intros [= <- ->]. by apply (Hlast pre fw post).
Qed.

(** The block that ends normally: the download gave openers, the loop
    ran over all of them, and the upload answered. *)
Lemma round_trip_ok (self : handler) ti fl d1 d2 (w w' : world) v :
  round_trip self ti fl d1 d2 w = (Ok v, w') →
  ∃ ops fs1 rem1 w2 job_id,
    download (DownloaderRunner := downloader_runner self) d1 fl (fs w) (remote w)
      = (Ok ops, fs1, rem1) ∧
    for_each (transform d2) ops (mkWorld fs1 rem1 (trace w ++ [Download d1 fl None]))
      = (Ok tt, w2) ∧
    trace w' = trace w2 ++
      [Upload d2 (new_transaction ti) (new_key_values ti) (fs w2) (Ok job_id)].
Proof.
  unfold round_trip. unfold bind at 1. unfold call_download, log.
  destruct (download d1 fl (fs w) (remote w)) as [[[ops|e] fs1] rem1] eqn:Hdl;
    cbn [outcome fs remote trace]; [|done].
  unfold bind at 1.
  destruct (for_each (transform d2) ops _) as [[[]|e] w2] eqn:Hloop; [|done].
  unfold bind, call_upload, log.
  destruct (upload d2 _ _ (fs w2) (remote w2)) as [[[[[b j] st]|e] fs3] rem3] eqn:Hul;
    cbn [job_id_of fs remote trace]; unfold ret; [|done].
  intros [= <- <-]. cbn [trace]. by exists ops, fs1, rem1, w2, j.
Qed.

(** Different relative names give different places in one directory. *)
Lemma normal_targets_apart k (fw : TextIO * string) (post : list (TextIO * string)) :
  OsPath.normal (name fw.1) = true →
  Forall (λ fw' : TextIO * string, OsPath.normal (name fw'.1) = true) post →
  name fw.1 ∉ map (λ fw' : TextIO * string, name fw'.1) post →
  target (Fs.candidate k) fw ∉ map (target (Fs.candidate k)) post.
Proof.
  intros Hfw Hpost Hnot Hin. apply Hnot.
  apply list_elem_of_In, in_map_iff in Hin as (fw' & Heq & Hin').
  apply list_elem_of_In, in_map_iff. exists fw'. split; [|done].
  rewrite Forall_forall in Hpost. apply list_elem_of_In, Hpost in Hin'.
  unfold target in Heq. eapply join_relative_inj; [| |exact Heq]; by apply normal_relative.
Qed.

(** C1, as the code has it: a run of [handle] that returns normally has
    asked the downloader runner for the files of the event, has called
    every opener that the download returned and read the file object it
    gave, and has called the uploader runner exactly once, with a
    key-value list that holds [uppercase_text = 'True'].  When the file
    objects are named by relative paths in normal form (every component
    a name: none empty, [.] or [..]), the file system given to that
    upload holds, for every file object, the upper-case form of the text
    read from it under its name in the uploader directory, unless a
    later file object has the same name.  The handler does not
    look at the key-values of the event. *)
Theorem handle_uploads_upper_case_once
    (self : handler) (event : Event) (w w' : world) (v : value) :
  handle self event w = (Ok v, w') →
  ∃ k1 k2 ti fl ops fs1 rem1 fws now job_id,
    Transaction_from_cloudevents_model event = Ok ti ∧
    File_from_cloudevents_model event = Ok fl ∧
    download (DownloaderRunner := downloader_runner self) (Fs.candidate k1) fl
      (Fs.mkdir (Fs.candidate k2) (Fs.mkdir (Fs.candidate k1) (fs w))) (remote w)
      = (Ok ops, fs1, rem1) ∧
    Forall2 (λ (op : opener) (fw : TextIO * string),
               ∃ fs0 fs0', op fs0 = Ok fw.1 ∧ read fw.1 fs0' = Ok fw.2) ops fws ∧
    calls_of w w' =
      [Mkdtemp (Fs.candidate k1); Mkdtemp (Fs.candidate k2);
       Download (Fs.candidate k1) fl None] ++
      flat_map (rewritten (Fs.candidate k2)) fws ++
      [Upload (Fs.candidate k2) (new_transaction ti) (new_key_values ti) now (Ok job_id);
       Cleanup (Fs.candidate k2); Cleanup (Fs.candidate k1)] ∧
    List.filter is_upload (calls_of w w') =
      [Upload (Fs.candidate k2) (new_transaction ti) (new_key_values ti) now (Ok job_id)] ∧
    mkTransactionKeyValue "uppercase_text" (Str "True") ∈ new_key_values ti ∧
    (Forall (λ fw : TextIO * string, OsPath.normal (name fw.1) = true) fws →
     ∀ pre fw post,
       fws = pre ++ fw :: post →
       name fw.1 ∉ map (λ fw' : TextIO * string, name fw'.1) post →
       files now !! (Fs.candidate k2 +:+ "/" +:+ name fw.1) = Some (upper fw.2)).
Proof.
  intros H. pose proof H as Hshape.
  apply handle_ok_shape in Hshape as (_ & ? & ? & ? & ? & ? & ? & ? & _ & Hshape & _).
  apply handle_steps in H
    as [[_ Ht] | [(k1 & _ & Ht & _) |
        (k1 & k2 & ti & fl & rb & w2 & _ & _ & Hti & Hfl & Hbody & _ & Ht & Hex)]].
  - rewrite (calls_of_app w w' []) in Hshape by (by rewrite app_nil_r). discriminate.
  - rewrite (calls_of_app _ _ _ Ht) in Hshape. discriminate.
  - clear Hshape. destruct Hex as [<- | (e & [=] & _)].
    apply round_trip_ok in Hbody as (ops & fs1 & rem1 & w3 & job_id & Hdl & Hloop & Ht2).
    cbn [fs remote trace] in Hdl, Hloop.
    apply for_each_rewrites in Hloop as (fws & Hall & Ht3 & _ & Hlast). cbn [trace] in Ht3.
    assert (Hcalls : calls_of w w' =
      [Mkdtemp (Fs.candidate k1); Mkdtemp (Fs.candidate k2);
       Download (Fs.candidate k1) fl None] ++
      flat_map (rewritten (Fs.candidate k2)) fws ++
      [Upload (Fs.candidate k2) (new_transaction ti) (new_key_values ti) (fs w3) (Ok job_id);
       Cleanup (Fs.candidate k2); Cleanup (Fs.candidate k1)]).
    { apply calls_of_app. rewrite Ht, Ht2, Ht3. rewrite <- !app_assoc. done. }
    exists k1, k2, ti, fl, ops, fs1, rem1, fws, (fs w3), job_id.
    repeat split; try done.
    + rewrite Hcalls. cbn [app List.filter is_upload]. rewrite List.filter_app.
      destruct (loop_calls_quiet _ (rewritten_loop_calls (File := File) (Fs.candidate k2) fws))
        as [_ ->].
      done.
    + apply list_elem_of_here.
    + intros Hnormal pre fw post Hsplit Hnot.
      assert (Hfw : OsPath.normal (name fw.1) = true ∧
                    Forall (λ fw' : TextIO * string, OsPath.normal (name fw'.1) = true) post).
      { rewrite Hsplit in Hnormal. apply Forall_app in Hnormal as [_ Hnormal].
        by apply Forall_cons in Hnormal. }
      destruct Hfw as [Hfw Hpost].
      rewrite <- (join_candidate k2 (name fw.1)) by (by apply normal_relative).
      apply (Hlast pre fw post Hsplit). by apply normal_targets_apart.
Qed.

End UploadOnce.

Section UploadOnceConcrete.
Import Py Scenario.
#[local] Existing Instance models.

(** C1's theorem on the run with the named downloader: the one upload
    is given a file system that holds [HELLO] under the name of the
    file object in the uploader directory. *)
Lemma handle_uploads_upper_case_once_witness :
  ∃ f now,
    name f = "a.txt" ∧
    Written f "hello" "/tmp/tmp1/a.txt" ∈ calls_of start (finish named_handler) ∧
    List.filter is_upload (calls_of start (finish named_handler)) =
      [Upload "/tmp/tmp1" (new_transaction transaction) (new_key_values transaction) now
         (Ok 7%Z)] ∧
    files now !! "/tmp/tmp1/a.txt" = Some "HELLO".
Proof.
  destruct (handle_uploads_upper_case_once named_handler event start
              (finish named_handler) None_)
    as (k1 & k2 & ti & fl & ops & fs1 & rem1 & fws & now & j &
        Hti & _ & _ & _ & Hcalls & Hup & _ & Hcont).
  { vm_compute. reflexivity. }
  destruct Runs.named_run as (f & now0 & _ & Hrun & Hname & _).
  rewrite Hrun in Hcalls. cbn [app] in Hcalls.
  assert (Hd2 : Fs.candidate k2 = "/tmp/tmp1").
  { apply (f_equal (λ l, match l with _ :: Mkdtemp d :: _ => d | _ => "" end)) in Hcalls.
    symmetry. exact Hcalls. }
  rewrite Hd2 in *. clear Hd2.
  apply (f_equal (drop 3)) in Hcalls. cbn [drop] in Hcalls.
  destruct fws as [|[f1 t1] [|fw2 fws]];
    cbn [flat_map rewritten app fst snd drop] in Hcalls.
  - exfalso.
    apply (f_equal (λ l, match l with Opened _ :: _ => true | _ => false end)) in Hcalls.
    discriminate Hcalls.
  - assert (Hf : Some f = Some f1).
    { exact (f_equal (λ l, match l with Opened g :: _ => Some g | _ => None end) Hcalls). }
    assert (Ht : Some "hello" = Some t1).
    { exact (f_equal (λ l, match l with _ :: Written _ t _ :: _ => Some t | _ => None end)
               Hcalls). }
    assert (Hnow : Some (now0, 7%Z) = Some (now, j)).
    { exact (f_equal (λ l, match l with
                           | _ :: _ :: Upload _ _ _ n (Ok i) :: _ => Some (n, i)
                           | _ => None
                           end) Hcalls). }
    injection Hf as <-. injection Ht as <-. injection Hnow as <- <-.
    injection Hti as <-.
    exists f, now0. split; [done|]. split.
    { rewrite Hrun. do 4 apply list_elem_of_further. apply list_elem_of_here. }
    split; [exact Hup|].
    specialize (Hcont ltac:(by rewrite Forall_singleton; cbn [fst]; rewrite Hname)
                  [] (f, "hello") [] eq_refl).
    cbn [map fst snd] in Hcont. rewrite Hname in Hcont.
    apply Hcont. apply not_elem_of_nil.
  - exfalso.
    apply (f_equal (λ l, match l with _ :: _ :: Opened _ :: _ => true | _ => false end))
      in Hcalls.
    discriminate Hcalls.
Defined.

End UploadOnceConcrete.

(* ===================================================================== *)
(** ** What the handler leaves in the file system                         *)
(* ===================================================================== *)

Lemma same_at_refl p fs0 : same_at p fs0 fs0.
Proof. by split. Qed.

Lemma same_at_trans p fs1 fs2 fs3 : same_at p fs1 fs2 → same_at p fs2 fs3 → same_at p fs1 fs3.
Proof. intros [H1 H2] [H3 H4]. split; [congruence|]. by rewrite H2. Qed.

Lemma mkdir_outside d fs0 : unchanged_outside d fs0 (Fs.mkdir d fs0).
Proof.
  intros p Hp. unfold same_at, Fs.mkdir. cbn [dirs files]. split; [done|].
  rewrite elem_of_union, elem_of_singleton. split; [by right|].
  intros [-> | H]; [|done]. by rewrite is_under_refl in Hp.
Qed.

Lemma open_w_outcome p fs0 :
  (Fs.open_w p fs0).2 = fs0 ∨
  (Fs.open_w p fs0).2 = mkFS (dirs fs0) (<[p := ""]> (files fs0)).
Proof. unfold Fs.open_w. repeat case_match; auto. Qed.

Lemma remove_tree_restores d (I X : FS) :
  (∀ p, OsPath.is_under d p = true → Fs.exists_ I p = false) →
  unchanged_outside d I X →
  Fs.remove_tree d X = I.
Proof.
  intros Hnone Hout. apply fs_ext. intros p. unfold same_at.
  rewrite remove_tree_files, remove_tree_dirs.
  destruct (OsPath.is_under d p) eqn:Hp.
  - apply Hnone, exists_false in Hp as [Hd Hf]. rewrite Hf. split; [done|].
    split; [by intros [_ ?]|done].
  - destruct (Hout p Hp) as [Hf Hd]. rewrite Hf. split; [done|]. rewrite Hd. tauto.
Qed.

Section HandlerFrame.
Import Py.
Context {Event File Bundle State Remote : Type}.
Context {models : @CloudEventsModels Event File}.
Context {unicode : Unicode}.

Abbreviation world := (@world File Remote).
Abbreviation call := (@call File).
Abbreviation handler := (@SimpleEventHandler File Bundle State Remote).

Lemma transform_frame k (op : opener) (w w' : world) r :
  (∀ fs0 f, op fs0 = Ok f → OsPath.startswith_sep (name f) = false) →
  transform (Fs.candidate k) op w = (r, w') →
  unchanged_outside (Fs.candidate k) (fs w) (fs w').
Proof.
  intros Hrel. unfold transform, bind, call_opener, open_w, call_read, write_close, log.
  destruct (op (fs w)) as [f|e] eqn:Hop.
  2:{ intros [= <- <-] p _. apply same_at_refl. }
  apply Hrel in Hop. rewrite (join_candidate _ _ Hop). cbn [fs remote trace].
  set (target := Fs.candidate k +:+ "/" +:+ name f).
  assert (Hopen : unchanged_outside (Fs.candidate k) (fs w) (Fs.open_w target (fs w)).2).
  { intros p Hp. destruct (open_w_outcome target (fs w)) as [-> | ->]; [apply same_at_refl|].
    unfold same_at. cbn [dirs files]. split; [|done].
    rewrite lookup_insert_ne; [done|]. intros <-. unfold target in Hp.
    by rewrite is_under_child in Hp. }
  destruct (Fs.open_w target (fs w)) as [[[]|e] fs1]; cbn [snd] in Hopen.
  2:{ by intros [= <- <-]. }
  cbn [fs remote trace].
  destruct (read f fs1) as [text|e]; intros [= <- <-]; cbn [fs]; [|done].
  intros p Hp. eapply same_at_trans; [by apply Hopen|].
  unfold same_at, Fs.write_text. cbn [dirs files]. split; [|done].
  rewrite lookup_insert_ne; [done|]. intros <-. unfold target in Hp.
  by rewrite is_under_child in Hp.
Qed.

Lemma for_each_frame k (ops : list opener) : ∀ (w w' : world) r,
  relative_names ops →
  for_each (transform (Fs.candidate k)) ops w = (r, w') →
  unchanged_outside (Fs.candidate k) (fs w) (fs w').
Proof.
  induction ops as [|op ops IH]; intros w w' r Hrel; cbn [for_each].
  - intros [= <- <-] p _. apply same_at_refl.
  - apply Forall_cons in Hrel as [Hop Hrel]. unfold bind at 1.
    destruct (transform (Fs.candidate k) op w) as [[[]|e] w1] eqn:Hstep.
    + apply (transform_frame _ _ _ _ _ Hop) in Hstep. intros Hrest.
      apply (IH _ _ _ Hrel) in Hrest. intros p Hp.
      eapply same_at_trans; [by apply Hstep | by apply Hrest].
    + intros [= <- <-]. by apply (transform_frame _ _ _ _ _ Hop) in Hstep.
Qed.

(** The block changes nothing outside the two directories and keeps
    both of them, for a downloader and an uploader that behave. *)
Lemma round_trip_frame (self : handler) ti fl k1 k2 (w w' : world) r :
  tidy_downloader (downloader_runner self) fl →
  reading_uploader (uploader_runner self) →
  Fs.candidate k1 ≠ Fs.candidate k2 →
  round_trip self ti fl (Fs.candidate k1) (Fs.candidate k2) w = (r, w') →
  (∀ p, OsPath.is_under (Fs.candidate k1) p = false →
        OsPath.is_under (Fs.candidate k2) p = false → same_at p (fs w) (fs w')) ∧
  (Fs.candidate k1 ∈ dirs (fs w) → Fs.candidate k1 ∈ dirs (fs w')) ∧
  (Fs.candidate k2 ∈ dirs (fs w) → Fs.candidate k2 ∈ dirs (fs w')).
Proof.
  intros Htidy Hread Hne.
  assert (H12 := candidates_apart k1 k2 Hne).
  assert (H21 := candidates_apart k2 k1 (not_eq_sym Hne)).
  unfold round_trip. unfold bind at 1. unfold call_download, log.
  destruct (download (Fs.candidate k1) fl (fs w) (remote w)) as [[rd fs1] rem1] eqn:Hdl.
  destruct (Htidy _ _ _ _ _ _ Hdl) as (Hout1 & Hkeep1 & Hnames).
  assert (Hkeep2 : Fs.candidate k2 ∈ dirs (fs w) → Fs.candidate k2 ∈ dirs fs1).
  { intros Hd. by apply (Hout1 _ H12). }
  destruct rd as [ops|e]; cbn [outcome fs remote trace].
  2:{ intros [= <- <-]. cbn [fs]. split; [|done]. intros p Hp _. by apply Hout1. }
  specialize (Hnames ops eq_refl).
  unfold bind at 1.
  destruct (for_each (transform (Fs.candidate k2)) ops _) as [rl w2] eqn:Hloop.
  destruct (for_each_any _ _ _ _ _ Hloop) as (_ & Hdirs & _).
  apply (for_each_frame _ _ _ _ _ (normal_names_relative _ Hnames)) in Hloop.
  cbn [fs] in Hloop, Hdirs.
  assert (Hall : (∀ p, OsPath.is_under (Fs.candidate k1) p = false →
                       OsPath.is_under (Fs.candidate k2) p = false →
                       same_at p (fs w) (fs w2)) ∧
                 (Fs.candidate k1 ∈ dirs (fs w) → Fs.candidate k1 ∈ dirs (fs w2)) ∧
                 (Fs.candidate k2 ∈ dirs (fs w) → Fs.candidate k2 ∈ dirs (fs w2))).
  { split; [|split].
    - intros p Hp1 Hp2. eapply same_at_trans; [by apply Hout1 | by apply Hloop].
    - intros Hd. rewrite Hdirs. by apply Hkeep1.
    - intros Hd. rewrite Hdirs. by apply Hkeep2. }
  destruct rl as [[]|e]; [|by intros [= <- <-]].
  unfold bind, call_upload, log.
  destruct (upload _ _ _ (fs w2) (remote w2)) as [[ru fs3] rem3] eqn:Hul.
  apply Hread in Hul as ->.
  destruct ru as [[[b j] st]|e]; unfold ret; intros [= <- <-]; exact Hall.
Qed.

(** X10: when the transaction, the key-values or the file list of the
    event cannot be read, [handle] raises that exception at once: no
    directory is made, no runner is called and the world is as it was.
    That holds for the key-values too, which the handler reads and never
    uses. *)
Theorem undecodable_event_has_no_effect
    (self : handler) (event : Event) (w : world) (e : exn) :
  Transaction_from_cloudevents_model event = Raise e ∨
  (∃ ti, Transaction_from_cloudevents_model event = Ok ti ∧
         TransactionKeyValue_from_cloudevents_model event = Raise e) ∨
  (∃ ti kvs, Transaction_from_cloudevents_model event = Ok ti ∧
             TransactionKeyValue_from_cloudevents_model event = Ok kvs ∧
             File_from_cloudevents_model event = Raise e) →
  handle self event w = (Raise e, w).
Proof.
  rewrite handle_unfold. unfold bind, lift.
  intros [H | [(ti & Ht & H) | (ti & kvs & Ht & Hk & H)]].
  - by rewrite H.
  - by rewrite Ht, H.
  - by rewrite Ht, Hk, H.
Qed.

(** X11: every directory that [handle] makes has a name at which
    nothing existed when the handler started, and the directory given
    to the download and the directory that the upload is taken from are
    two different directories. *)
Theorem temporary_directories_are_new
    (self : handler) (event : Event) (w w' : world) (r : result value) :
  handle self event w = (r, w') →
  (∀ d, Mkdtemp d ∈ calls_of w w' → Fs.exists_ (fs w) d = false) ∧
  (∀ d1 d2 rest, calls_of w w' = Mkdtemp d1 :: Mkdtemp d2 :: rest → d1 ≠ d2).
Proof.
  intros H. apply handle_steps in H
    as [[_ Ht] | [(k1 & Hnew1 & Ht & _) |
        (k1 & k2 & ti & fl & rb & w2 & Hnew1 & Hnew2 & _ & _ & Hbody & _ & Ht & _)]].
  - rewrite (calls_of_app w w' []) by (by rewrite app_nil_r).
    split; [|done]. intros d Hd. by apply elem_of_nil in Hd.
  - rewrite (calls_of_app _ _ _ Ht). split; [|done].
    intros d. rewrite !elem_of_cons, elem_of_nil. by intros [[= ->] | [[=] | []]].
  - apply round_trip_run in Hbody as (inner & Ht2 & Hshape). cbn [trace] in Ht2.
    apply round_trip_shape_calls in Hshape.
    assert (Hcalls : calls_of w w' = Mkdtemp (Fs.candidate k1) :: Mkdtemp (Fs.candidate k2)
                       :: inner ++ [Cleanup (Fs.candidate k2); Cleanup (Fs.candidate k1)]).
    { apply calls_of_app. rewrite Ht, Ht2, <- !app_assoc. done. }
    rewrite Hcalls. split.
    + intros d. rewrite !elem_of_cons, elem_of_app, !elem_of_cons, elem_of_nil.
      intros [[= ->] | [[= ->] | [Hin | [[=] | [[=] | []]]]]]; [done| |].
      * by apply exists_mkdir_other in Hnew2.
      * rewrite Forall_forall in Hshape. by apply Hshape in Hin.
    + intros d1 d2 rest [= <- <- _] Heq. rewrite <- Heq in Hnew2.
      by rewrite exists_mkdir_self in Hnew2.
Qed.

(** X12: every text that [handle] writes goes to
    [os.path.join(second temporary directory, name of the file object)];
    for a file object with an absolute name that is the name itself,
    whatever the temporary directory is. *)
Theorem handle_writes_at_joined_names
    (self : handler) (event : Event) (w w' : world) (r : result value)
    (f : TextIO) (text p : string) :
  handle self event w = (r, w') →
  Written f text p ∈ calls_of w w' →
  ∃ d1 d2 rest,
    calls_of w w' = Mkdtemp d1 :: Mkdtemp d2 :: rest ∧
    p = OsPath.join d2 (name f) ∧
    (OsPath.startswith_sep (name f) = true → p = name f).
Proof.
  intros H. apply handle_steps in H
    as [[_ Ht] | [(k1 & Hnew1 & Ht & _) |
        (k1 & k2 & ti & fl & rb & w2 & _ & _ & _ & _ & Hbody & _ & Ht & _)]].
  - rewrite (calls_of_app w w' []) by (by rewrite app_nil_r).
    intros Hin. by apply elem_of_nil in Hin.
  - rewrite (calls_of_app _ _ _ Ht). rewrite !elem_of_cons, elem_of_nil.
    by intros [[=] | [[=] | []]].
  - pose proof Hbody as Hrun.
    apply round_trip_run in Hrun as (inner & Ht2 & _). cbn [trace] in Ht2.
    assert (Hcalls : calls_of w w' = Mkdtemp (Fs.candidate k1) :: Mkdtemp (Fs.candidate k2)
                       :: inner ++ [Cleanup (Fs.candidate k2); Cleanup (Fs.candidate k1)]).
    { apply calls_of_app. rewrite Ht, Ht2, <- !app_assoc. done. }
    rewrite Hcalls. rewrite !elem_of_cons, elem_of_app, !elem_of_cons, elem_of_nil.
    intros [[=] | [[=] | [Hin | [[=] | [[=] | []]]]]].
    exists (Fs.candidate k1), (Fs.candidate k2), (inner ++ [Cleanup (Fs.candidate k2);
                                                            Cleanup (Fs.candidate k1)]).
    split; [done|].
    assert (Hp : p = OsPath.join (Fs.candidate k2) (name f)).
    { eapply round_trip_writes; [exact Hbody|].
      erewrite calls_of_app; [exact Hin | exact Ht2]. }
    split; [done|]. intros Habs. rewrite Hp. unfold OsPath.join. by rewrite Habs.
Qed.

(** X13: with a downloader that changes nothing outside the directory
    it is given, keeps that directory and hands back file objects that
    are named by relative paths in normal form (every component a name:
    none empty, [.] or [..]), with an uploader that does not change the
    local
    file system, and with nothing lying below an unused temporary name
    at the start, [handle] leaves the file system exactly as it found
    it, however it ends. *)
Theorem handle_restores_file_system
    (self : handler) (event : Event) (w w' : world) (r : result value) :
  (∀ fl, File_from_cloudevents_model event = Ok fl →
         tidy_downloader (downloader_runner self) fl) →
  reading_uploader (uploader_runner self) →
  no_strays (fs w) →
  handle self event w = (r, w') →
  fs w' = fs w.
Proof.
  intros Htidy Hread Hstrays H. apply handle_steps in H
    as [[Hfs _] | [(k1 & Hnew1 & _ & Hfs) |
        (k1 & k2 & ti & fl & rb & w2 & Hnew1 & Hnew2 & _ & Hfl & Hbody & Hfs & _ & _)]].
  - done.
  - rewrite Hfs, rmtree_present.
    2:{ unfold Fs.mkdir. cbn [dirs]. apply elem_of_union. left. by apply elem_of_singleton. }
    apply remove_tree_restores; [|apply mkdir_outside].
    intros p Hp. by apply (Hstrays k1).
  - assert (Hne : Fs.candidate k1 ≠ Fs.candidate k2).
    { intros Heq. rewrite <- Heq in Hnew2. by rewrite exists_mkdir_self in Hnew2. }
    assert (H12 := candidates_apart k1 k2 Hne).
    assert (H21 := candidates_apart k2 k1 (not_eq_sym Hne)).
    apply exists_mkdir_other in Hnew2 as Hnew2'.
    destruct (round_trip_frame _ _ _ _ _ _ _ _ (Htidy fl Hfl) Hread Hne Hbody)
      as (Hout & Hkeep1 & Hkeep2).
    cbn [fs] in Hout, Hkeep1, Hkeep2.
    assert (Hd1 : Fs.candidate k1 ∈ dirs (fs w2)).
    { apply Hkeep1. unfold Fs.mkdir. cbn [dirs]. rewrite !elem_of_union, !elem_of_singleton.
      auto. }
    assert (Hd2 : Fs.candidate k2 ∈ dirs (fs w2)).
    { apply Hkeep2. unfold Fs.mkdir. cbn [dirs]. rewrite !elem_of_union, !elem_of_singleton.
      auto. }
    rewrite Hfs. rewrite (rmtree_present _ _ Hd2). rewrite rmtree_present.
    2:{ apply remove_tree_dirs. by split. }
    apply remove_tree_restores.
    { intros p Hp. by apply (Hstrays k1). }
    intros p Hp1. unfold same_at. rewrite remove_tree_files, remove_tree_dirs.
    destruct (OsPath.is_under (Fs.candidate k2) p) eqn:Hp2.
    + apply (Hstrays k2 p Hnew2'), exists_false in Hp2 as [Hd Hf]. rewrite Hf.
      split; [done|]. split; [done|]. by intros [_ ?].
    + destruct (Hout p Hp1 Hp2) as [Hf Hd].
      destruct (mkdir_outside (Fs.candidate k1) (fs w) p Hp1) as [Hf1 Hd1'].
      destruct (mkdir_outside (Fs.candidate k2) (Fs.mkdir (Fs.candidate k1) (fs w)) p Hp2)
        as [Hf2 Hd2'].
      split; [congruence|]. rewrite Hd1', Hd2', Hd. tauto.
Qed.

End HandlerFrame.

(** The named downloader of the scenario is tidy on its file list, its
    uploader only reads, and the empty file system has no strays. *)
Lemma named_downloader_tidy : tidy_downloader Scenario.named_downloader ["a.txt"].
Proof.
  intros k fs0 rem r fs' rem'. unfold download, Scenario.named_downloader.
  cbn [map Scenario.fetch foldr]. intros [= <- <- <-].
  rewrite (join_candidate k "a.txt" eq_refl). split; [|split].
  - intros p Hp. unfold same_at, Fs.write_text. cbn [dirs files]. split; [|done].
    rewrite lookup_insert_ne; [done|]. intros <-. by rewrite is_under_child in Hp.
  - done.
  - intros ops [= <-]. constructor; [|constructor]. by intros fs1 f [= <-].
Qed.

Lemma counting_uploader_reads : reading_uploader Scenario.counting_uploader.
Proof. intros d t kvs fs0 rem r fs' rem'. by intros [= _ <- _]. Qed.

Lemma empty_no_strays : no_strays Fs.empty.
Proof. intros k p _ _. apply exists_false. split; [set_solver|done]. Qed.

Section MoreConcrete.
Import Py Scenario.

Lemma undecodable_event_has_no_effect_witness :
  handle (models := Cases.unreadable_key_values) named_handler event start
  = (Raise (Error "key-values"), start).
Proof.
  apply (undecodable_event_has_no_effect (models := Cases.unreadable_key_values)).
  right. left. by exists transaction.
Defined.

Lemma temporary_directories_are_new_witness :
  (∀ d, Mkdtemp d ∈ calls_of start (finish named_handler) → Fs.exists_ (fs start) d = false) ∧
  (∀ d1 d2 rest, calls_of start (finish named_handler) = Mkdtemp d1 :: Mkdtemp d2 :: rest →
                 d1 ≠ d2).
Proof.
  apply (temporary_directories_are_new (models := models) named_handler event start
           (finish named_handler) (answer named_handler)).
  vm_compute. reflexivity.
Defined.

Lemma handle_writes_at_joined_names_witness :
  ∃ d1 d2 rest,
    calls_of start (finish builtin_handler) = Mkdtemp d1 :: Mkdtemp d2 :: rest ∧
    "/tmp/tmp0/a.txt" = OsPath.join d2 "/tmp/tmp0/a.txt" ∧
    (OsPath.startswith_sep "/tmp/tmp0/a.txt" = true → "/tmp/tmp0/a.txt" = "/tmp/tmp0/a.txt").
Proof.
  apply (handle_writes_at_joined_names (models := models) builtin_handler event start
           (finish builtin_handler) (answer builtin_handler)
           (mkTextIO "/tmp/tmp0/a.txt" (Fs.read_text "/tmp/tmp0/a.txt")) "").
  - vm_compute. reflexivity.
  - vm_compute. do 4 apply list_elem_of_further. apply list_elem_of_here.
Defined.

Lemma handle_restores_file_system_witness :
  fs (finish named_handler) = fs start.
Proof.
  apply (handle_restores_file_system (models := models) named_handler event start
           (finish named_handler) (answer named_handler)).
  - intros fl [= <-]. exact named_downloader_tidy.
  - exact counting_uploader_reads.
  - exact empty_no_strays.
  - vm_compute. reflexivity.
Defined.

End MoreConcrete.

(* ===================================================================== *)
(** ** Edge cases of the loop                                             *)
(* ===================================================================== *)

Section LoopMore.
Import Py.
Context {File Remote : Type}.
Context {unicode : Unicode}.

Abbreviation world := (@world File Remote).
Abbreviation call := (@call File).

(** X14: a file object that the built-in [open] gave for an absolute
    path makes the loop body open that very path for writing: whatever
    text the file held is lost, the empty text is read and written
    back, and nothing is written below the uploader directory. *)
Theorem absolute_path_file_is_emptied (d path content : string) (w : world) :
  OsPath.startswith_sep path = true →
  files (fs w) !! path = Some content →
  path ∉ dirs (fs w) →
  OsPath.dirname path ∈ dirs (fs w) →
  Fs.names_a_directory (OsPath.basename path) = false →
  ∃ f,
    name f = path ∧
    transform d (builtin_open path) w
    = (Ok tt,
       mkWorld (mkFS (dirs (fs w)) (<[path := ""]> (files (fs w)))) (remote w)
               (trace w ++ [Opened f; Written f "" path])).
Proof.
  intros Habs Hfile Hnodir Hparent Hbase.
  exists (mkTextIO path (Fs.read_text path)). split; [done|].
  unfold transform, bind, call_opener, builtin_open. rewrite Hfile.
  cbn [name]. unfold OsPath.join. rewrite Habs.
  unfold open_w, Fs.open_w, log. cbn [fs remote trace].
  rewrite (bool_decide_eq_false_2 _ Hnodir), (bool_decide_eq_true_2 _ Hparent), Hbase.
  cbn [negb]. unfold call_read, write_close, log. cbn [fs remote trace read].
  unfold Fs.read_text, Fs.write_text. cbn [files dirs]. rewrite lookup_insert_eq.
  rewrite (upper_isascii "" eq_refl). cbn [upper_ascii_text].
  by rewrite insert_insert_eq, <- app_assoc.
Qed.

(** X15: in a loop that ended normally over file objects that are
    named by relative paths in normal form, every opener was called and
    its file object read, and the directory holds under a name the
    upper-case form of the text of the last file object of that name:
    of two file objects with one name, the text of the first is
    overwritten. *)
Theorem loop_last_write_wins (k : nat) (ops : list opener) : ∀ (w w' : world),
  normal_names ops →
  for_each (transform (Fs.candidate k)) ops w = (Ok tt, w') →
  ∃ fws : list (TextIO * string),
    Forall2 (λ (op : opener) (fw : TextIO * string),
               ∃ fs0 fs0', op fs0 = Ok fw.1 ∧ read fw.1 fs0' = Ok fw.2) ops fws ∧
    trace w' = trace w ++ flat_map (rewritten (Fs.candidate k)) fws ∧
    ∀ pre fw post,
      fws = pre ++ fw :: post →
      name fw.1 ∉ map (λ fw' : TextIO * string, name fw'.1) post →
      files (fs w') !! (Fs.candidate k +:+ "/" +:+ name fw.1) = Some (upper fw.2).
Proof.
  intros w w' Hnormal H.
  apply for_each_rewrites in H as (fws & Hall & Htr & _ & Hlast).
  exists fws. split; [done|]. split; [done|].
  assert (Hfws : Forall (λ fw : TextIO * string, OsPath.normal (name fw.1) = true) fws).
  { clear -Hnormal Hall. induction Hall as [|op fw ops fws (fs0 & _ & Hop & _) _ IH];
      [constructor|].
    apply Forall_cons in Hnormal as [Hp Hnormal]. constructor; [by apply (Hp fs0)|by apply IH]. }
  intros pre fw post Hsplit Hnot.
  rewrite Hsplit in Hfws. apply Forall_app in Hfws as [_ Hfws].
  apply Forall_cons in Hfws as [Hfw Hpost].
  rewrite <- (join_candidate k (name fw.1)) by (by apply normal_relative).
  apply (Hlast pre fw post Hsplit). by apply normal_targets_apart.
Qed.

End LoopMore.

Section LoopConcrete.
Import Py Scenario.

Lemma absolute_path_file_is_emptied_witness :
  ∃ f,
    name f = "/srv/data.txt" ∧
    transform "/tmp/tmp1" (builtin_open "/srv/data.txt") Cases.served
    = (Ok tt,
       mkWorld (mkFS (dirs (fs Cases.served)) (<["/srv/data.txt" := ""]> (files (fs Cases.served))))
               (remote Cases.served)
               (trace Cases.served ++ [Opened f; Written f "" "/srv/data.txt"])).
Proof.
  apply (absolute_path_file_is_emptied "/tmp/tmp1" "/srv/data.txt" "hello" Cases.served).
  - reflexivity.
  - vm_compute. reflexivity.
  - vm_compute. set_solver.
  - vm_compute. set_solver.
  - reflexivity.
Defined.

Lemma loop_last_write_wins_witness :
  ∃ fws : list (TextIO * string),
    Forall2 (λ (op : opener) (fw : TextIO * string),
               ∃ fs0 fs0', op fs0 = Ok fw.1 ∧ read fw.1 fs0' = Ok fw.2) Cases.twins fws ∧
    trace (for_each (transform (Fs.candidate 1)) Cases.twins Cases.staging).2
    = trace Cases.staging ++ flat_map (rewritten (Fs.candidate 1)) fws ∧
    ∀ pre fw post,
      fws = pre ++ fw :: post →
      name fw.1 ∉ map (λ fw' : TextIO * string, name fw'.1) post →
      files (fs (for_each (transform (Fs.candidate 1)) Cases.twins Cases.staging).2)
        !! (Fs.candidate 1 +:+ "/" +:+ name fw.1) = Some (upper fw.2).
Proof.
  apply (loop_last_write_wins 1 Cases.twins Cases.staging
           (for_each (transform (Fs.candidate 1)) Cases.twins Cases.staging).2).
  - repeat constructor; by intros fs0 f [= <-].
  - vm_compute. reflexivity.
Defined.

Example same_name_keeps_second_text :
  files (fs (for_each (transform "/tmp/tmp1") Cases.twins Cases.staging).2) !! "/tmp/tmp1/a.txt"
  = Some "SECOND".
Proof. vm_compute. reflexivity. Qed.

End LoopConcrete.

(* ===================================================================== *)
(** ** The arguments of the runner calls                                  *)
(* ===================================================================== *)

Section RunnerArguments.
Import Py.
Context {Event File Bundle State Remote : Type}.
Context {models : @CloudEventsModels Event File}.
Context {unicode : Unicode}.

Abbreviation world := (@world File Remote).
Abbreviation call := (@call File).
Abbreviation handler := (@SimpleEventHandler File Bundle State Remote).

Lemma loop_calls_are_no_runner_calls (l : list call) (c : call) :
  Forall loop_call l → c ∈ l →
  match c with
  | Download _ _ _ | Upload _ _ _ _ _ => False
  | _ => True
  end.
Proof.
  intros Hl Hin. rewrite Forall_forall in Hl. apply Hl in Hin. by destruct c.
Qed.

(** X16: the downloader runner is asked for the file list read off the
    event, into the first directory that [handle] made; the uploader
    runner is given the second directory. *)
Theorem runner_call_arguments
    (self : handler) (event : Event) (w w' : world) (r : result value) :
  handle self event w = (r, w') →
  (∀ b fl raised, Download b fl raised ∈ calls_of w w' →
     File_from_cloudevents_model event = Ok fl ∧
     ∃ rest, calls_of w w' = Mkdtemp b :: rest) ∧
  (∀ d t kvs now answer, Upload d t kvs now answer ∈ calls_of w w' →
     ∃ d1 rest, calls_of w w' = Mkdtemp d1 :: Mkdtemp d :: rest).
Proof.
  intros H. apply handle_calls in H.
  destruct H as [e0 _ _ | _ | d1 e0 _ Hgone | ti fl k1 k2 rb inner _ Hfl Hshape _ _ _].
  - split; intros; by apply elem_of_nil in H.
  - split; intros; by apply elem_of_nil in H.
  - split; intros *; rewrite !elem_of_cons, elem_of_nil; by intros [[=] | [[=] | []]].
  - assert (Hinner :
      (∀ b fl0 raised, Download b fl0 raised ∈ inner → b = Fs.candidate k1 ∧ fl0 = fl) ∧
      (∀ d t kvs now answer, Upload d t kvs now answer ∈ inner → d = Fs.candidate k2)).
    { destruct Hshape as [e0 | e0 loop Hl | e0 fws now0 _ | fws now0 job_id _].
      - split; intros *; rewrite elem_of_cons, elem_of_nil.
        + by intros [[= -> -> _] | []].
        + by intros [[=] | []].
      - split; intros *; rewrite elem_of_cons.
        + intros [[= -> -> _] | Hin]; [done|].
          by destruct (loop_calls_are_no_runner_calls _ _ Hl Hin).
        + intros [[=] | Hin]. by destruct (loop_calls_are_no_runner_calls _ _ Hl Hin).
      - pose proof (rewritten_loop_calls (File := File) (Fs.candidate k2) fws) as Hl.
        split; intros *; rewrite elem_of_cons, elem_of_app, elem_of_cons, elem_of_nil.
        + intros [[= -> -> _] | [Hin | [[=] | []]]]; [done|].
          by destruct (loop_calls_are_no_runner_calls _ _ Hl Hin).
        + intros [[=] | [Hin | [[= -> _ _ _ _] | []]]]; [|done].
          by destruct (loop_calls_are_no_runner_calls _ _ Hl Hin).
      - pose proof (rewritten_loop_calls (File := File) (Fs.candidate k2) fws) as Hl.
        split; intros *; rewrite elem_of_cons, elem_of_app, elem_of_cons, elem_of_nil.
        + intros [[= -> -> _] | [Hin | [[=] | []]]]; [done|].
          by destruct (loop_calls_are_no_runner_calls _ _ Hl Hin).
        + intros [[=] | [Hin | [[= -> _ _ _ _] | []]]]; [|done].
          by destruct (loop_calls_are_no_runner_calls _ _ Hl Hin). }
    destruct Hinner as [Hdl Hul]. split.
    + intros b fl0 raised. rewrite !elem_of_app, !elem_of_cons, !elem_of_nil.
      intros [[[=] | [[=] | []]] | [Hin | [[=] | [[=] | []]]]].
      apply Hdl in Hin as [-> ->]. split; [done|]. by eexists.
    + intros d t kvs now answer. rewrite !elem_of_app, !elem_of_cons, !elem_of_nil.
      intros [[[=] | [[=] | []]] | [Hin | [[=] | [[=] | []]]]].
      apply Hul in Hin as ->. by eexists _, _.
Qed.

End RunnerArguments.

Section RunnerArgumentsConcrete.
Import Py Scenario.

Lemma runner_call_arguments_witness :
  (∀ b fl raised, Download b fl raised ∈ calls_of start (finish named_handler) →
     File_from_cloudevents_model (CloudEventsModels := models) event = Ok fl ∧
     ∃ rest, calls_of start (finish named_handler) = Mkdtemp b :: rest) ∧
  (∀ d t kvs now answer, Upload d t kvs now answer ∈ calls_of start (finish named_handler) →
     ∃ d1 rest, calls_of start (finish named_handler) = Mkdtemp d1 :: Mkdtemp d :: rest).
Proof.
  apply (runner_call_arguments (models := models) named_handler event start
           (finish named_handler) (answer named_handler)).
  vm_compute. reflexivity.
Defined.

End RunnerArgumentsConcrete.
